(** * SC2Wrapper / SC2Env: the SMAC adapter of torchrl/envs/libs/smac.py

    A shallow embedding of the wrapper around [smac.env.StarCraft2Env].
    The wrapper is stateful Python: it owns the external environment,
    keeps three spec attributes, and hands out container records that are
    heap objects.  The embedding threads a [World] (the wrapper object
    together with a store of records) through a state-and-exception monad
    in which a raised exception keeps the state reached so far.  Loading
    the module is a step of its own: the guarded import and the class
    statement can fail before any function of the file can be called. *)

From stdpp Require Import gmap strings list fin_maps.
From Stdlib Require Import ZArith QArith.

Set Warnings "-register-all".

Open Scope string_scope.
Open Scope Z_scope.

(** ** Tensors *)

Inductive DType := torch_bool | torch_int64 | torch_float32 | torch_float64.

#[global] Instance DType_eq_dec : EqDecision DType.
Proof. solve_decision. Defined.

Abbreviation Device := string.
Abbreviation Size := (list Z).

(** Element values.  Floating-point payloads are carried as rationals;
    rounding is not part of the model, only the dtype tag is. *)
Inductive Scalar :=
| SBool (b : bool)
| SInt (z : Z)
| SFloat (q : Q).

Record Tensor := mkTensor {
  t_shape : Size;
  t_dtype : DType;
  t_data : list Scalar
}.

Definition scalar_truth (s : Scalar) : bool :=
  match s with
  | SBool b => b
  | SInt z => negb (z =? 0)
  | SFloat q => negb (Qeq_bool q 0)
  end.

Definition scalar_to_Q (s : Scalar) : Q :=
  match s with
  | SBool b => if b then 1%Q else 0%Q
  | SInt z => inject_Z z
  | SFloat q => q
  end.

Definition scalar_to_Z (s : Scalar) : Z :=
  match s with
  | SBool b => if b then 1 else 0
  | SInt z => z
  | SFloat q => Z.quot (Qnum q) (Z.pos (Qden q))
  end.

(** [x.to(dtype)] on one element. *)
Definition cast_scalar (d : DType) (s : Scalar) : Scalar :=
  match d with
  | torch_bool => SBool (scalar_truth s)
  | torch_int64 => SInt (scalar_to_Z s)
  | torch_float32 | torch_float64 => SFloat (scalar_to_Q s)
  end.

Definition numel (shape : Size) : nat :=
  Z.to_nat (foldr Z.mul 1 shape).

(** [torch.zeros(size, dtype=dtype)] *)
Definition torch_zeros (size : Size) (d : DType) : Tensor :=
  mkTensor size d (replicate (numel size) (cast_scalar d (SInt 0))).

(** ** Exceptions *)

Inductive Exn :=
| TypeError (msg : string)
| NameError (msg : string)
| RuntimeError (msg : string)
| NotImplementedError (msg : string)
| KeyError (key : string)
| ValueError (msg : string)
| AttributeError (msg : string)
| EnvError (payload : string).

Abbreviation Result A := (Exn + A)%type.

(** [torch.tensor(rows, dtype=d)] on a list of per-agent rows: a ragged
    nesting is refused, an empty outer list gives shape [[0]]. *)
Definition row_lengths_agree {A} (rows : list (list A)) : bool :=
  match rows with
  | [] => true
  | r :: rest => forallb (fun r' => Nat.eqb (length r') (length r)) rest
  end.

Definition rows_shape {A} (rows : list (list A)) : Size :=
  match rows with
  | [] => [0]
  | r :: _ => [Z.of_nat (length rows); Z.of_nat (length r)]
  end.

Definition torch_tensor (d : DType) (rows : list (list Scalar)) : Result Tensor :=
  if row_lengths_agree rows
  then inr (mkTensor (rows_shape rows) d (cast_scalar d <$> concat rows))
  else inl (ValueError "expected sequence of equal lengths").

(** ** Specs (torchrl.data.tensor_specs), as the values the wrapper builds *)

Inductive TensorSpec :=
| UnboundedContinuousTensorSpec (device : Device) (dtype : DType)
| NdUnboundedContinuousTensorSpec (shape : Size) (device : Device) (dtype : DType)
| CustomNdOneHotDiscreteTensorSpec (mask : Tensor) (device : Device)
| CompositeSpec (entries : list (string * TensorSpec)).

(** The dtype the spec classes take when none is passed; the class
    docstrings of the wrapper print float32 for reward and observation. *)
Definition default_dtype : DType := torch_float32.

Definition spec_dtype (s : TensorSpec) : Result DType :=
  match s with
  | UnboundedContinuousTensorSpec _ d => inr d
  | NdUnboundedContinuousTensorSpec _ _ d => inr d
  | CustomNdOneHotDiscreteTensorSpec _ _ => inr torch_int64
  | CompositeSpec _ => inl (AttributeError "dtype")
  end.

Fixpoint assoc_lookup {A} (k : string) (l : list (string * A)) : option A :=
  match l with
  | [] => None
  | (k', v) :: rest => if decide (k' = k) then Some v else assoc_lookup k rest
  end.

(** [spec[key]] on a composite spec. *)
Definition spec_getitem (s : TensorSpec) (key : string) : Result TensorSpec :=
  match s with
  | CompositeSpec entries =>
      match assoc_lookup key entries with
      | Some sub => inr sub
      | None => inl (KeyError key)
      end
  | _ => inl (TypeError "spec is not subscriptable")
  end.

(** ** Container records (TensorDict) *)

Record TensorDict := mkTensorDict {
  td_fields : gmap string Tensor;
  td_batch_size : Size;
  td_device : Device
}.

Abbreviation loc := positive.

(** The container admits a tensor under a batch shape when the batch
    shape is a prefix of the tensor's shape, and it keeps every entry at
    least one dimension beyond the batch shape: a tensor whose shape is
    the batch shape itself is stored with a trailing dimension of size 1
    (the class docstrings of the wrapper print [done] and [reward] with
    shape [[1]] in a record of empty batch shape). *)
Definition has_batch (bs : Size) (t : Tensor) : bool :=
  bool_decide (take (length bs) (t_shape t) = bs).

Definition unsqueeze_last (t : Tensor) : Tensor :=
  mkTensor (t_shape t ++ [1]) (t_dtype t) (t_data t).

Definition at_least_1d (bs : Size) (t : Tensor) : Tensor :=
  if decide (length (t_shape t) = length bs) then unsqueeze_last t else t.

(** The texts of the exceptions the container raises belong to the
    container library; they are taken as given. *)
Class TensorDictTexts := {
  key_not_found_text : string -> string;
  batch_mismatch_text : Size -> Tensor -> string;
  batch_incongruent_text : Size -> list (string * Tensor) -> string
}.

(** ** The external environment

    [smac.env.StarCraft2Env] is a collaborator outside the repository.  It
    is taken as an interface: the five capabilities the wrapper calls plus
    the constructor used by [SC2Env].  Calls that advance the game return
    the successor handle also when they raise. *)

Abbreviation Obs := (list (list Q)).

(** Python values that can travel in the constructor's keyword dictionary. *)
Inductive PyVal (E : Type) :=
| VEnv (e : E)
| VStr (s : string)
| VInt (z : Z)
| VBool (b : bool)
| VNone.
Arguments VEnv {E} e.
Arguments VStr {E} s.
Arguments VInt {E} z.
Arguments VBool {E} b.
Arguments VNone {E}.

Class StarCraft2Env (E : Type) := {
  (* smac.env.StarCraft2Env(map_name, seed=seed, **kwargs) *)
  sc2_new : PyVal E -> PyVal E -> gmap string (PyVal E) -> Result E;
  (* env.reset() -> (obs, state) *)
  sc2_reset : E -> Result (Obs * list Q) * E;
  (* env.step(actions) -> (reward, done, info) *)
  sc2_step : E -> list Z -> Result (Q * bool * gmap string Z) * E;
  sc2_get_obs : E -> Obs;
  sc2_get_avail_actions : E -> list (list Z);
  sc2_get_env_info : E -> gmap string Z;
  sc2_seed : E -> option Z
}.

(** The conversion rule of the spec layer, [spec.to_numpy(value)]: the
    class that implements it is not part of the wrapper's file, so the
    rule is an operation of the interface, and it may raise. *)
Class SpecConversion := {
  to_numpy : TensorSpec -> Tensor -> Result (list Z)
}.

(** ** Module-level state of smac.py: the outcome of the guarded import *)

Record ModuleState (R : Type) := mkModule {
  _has_smac : bool;
  IMPORT_ERR : string;
  (* smac_maps.get_smac_map_registry(), in dictionary order *)
  smac_map_registry : list (string * R)
}.
Arguments _has_smac {R} _.
Arguments IMPORT_ERR {R} _.
Arguments smac_map_registry {R} _.

Definition _get_envs {R} (m : ModuleState R) : list string :=
  if negb (_has_smac m) then []
  else (fun '(map_name, _) => map_name) <$> smac_map_registry m.

Definition git_url : string := "https://github.com/oxwhirl/smac".
Definition libname : string := "smac".

(** Class attribute [available_envs = _get_envs()], for a module that has
    been loaded. *)
Definition available_envs {R} (m : ModuleState R) : list string := _get_envs m.

(** ** Loading the module

    The three imports of lines 16-18 run inside one [try].  Two ways of
    failing are told apart: the package is not installed, so that the
    first import raises and the name [smac] is never bound; or the
    package is there and only the last import, of the map registry,
    raises.  A failure of the middle import is left out: what it leaves
    bound depends on the package. *)
Inductive ImportOutcome :=
| imports_ok
| smac_not_installed (err : string)
| smac_maps_missing (err : string).

(** Lines 15-23: the flag and, after a failure, the text of the error. *)
Definition state_after_import {R} (o : ImportOutcome) (registry : list (string * R))
  : ModuleState R :=
  match o with
  | imports_ok => mkModule R true "" registry
  | smac_not_installed err => mkModule R false err []
  | smac_maps_missing err => mkModule R false err []
  end.

Definition smac_is_bound (o : ImportOutcome) : bool :=
  match o with
  | smac_not_installed _ => false
  | _ => true
  end.

(** The rest of the module: the class statement of [SC2Wrapper] runs its
    body, which calls [_get_envs] (line 62) and then defines [__init__]
    (line 65); defining it evaluates the annotation
    [smac.env.StarCraft2Env] of its parameter, which needs the name
    [smac].  The module is loaded when that has succeeded. *)
Definition load_module {R} (o : ImportOutcome) (registry : list (string * R))
  : Result (ModuleState R) :=
  let m := state_after_import o registry in
  let available_envs := _get_envs m in
  if smac_is_bound o then inr m
  else inl (NameError "name 'smac' is not defined").

Section Wrapper.

Context {E : Type} `{!StarCraft2Env E} `{!SpecConversion} `{!TensorDictTexts}.
Context {R : Type} (smac_py : ModuleState R).

Abbreviation kwargs_t := (gmap string (PyVal E)).

(** ** The wrapper object and the world

    Attributes assigned after the base initialiser are absent until the
    assignment has run; reading an absent attribute raises. *)

Record Wrapper := mkWrapper {
  _env : option E;
  device : Device;
  batch_size : Size;
  reward_spec : option TensorSpec;
  input_spec : option TensorSpec;
  observation_spec : option TensorSpec;
  _is_done : option Tensor;
  wrapper_frame_skip : option Z
}.

Record World := mkWorld {
  self : Wrapper;
  heap : gmap loc TensorDict
}.

Definition with_env (e : E) (s : Wrapper) : Wrapper :=
  mkWrapper (Some e) (device s) (batch_size s) (reward_spec s) (input_spec s)
            (observation_spec s) (_is_done s) (wrapper_frame_skip s).
Definition with_reward_spec (x : TensorSpec) (s : Wrapper) : Wrapper :=
  mkWrapper (_env s) (device s) (batch_size s) (Some x) (input_spec s)
            (observation_spec s) (_is_done s) (wrapper_frame_skip s).
Definition with_input_spec (x : TensorSpec) (s : Wrapper) : Wrapper :=
  mkWrapper (_env s) (device s) (batch_size s) (reward_spec s) (Some x)
            (observation_spec s) (_is_done s) (wrapper_frame_skip s).
Definition with_observation_spec (x : TensorSpec) (s : Wrapper) : Wrapper :=
  mkWrapper (_env s) (device s) (batch_size s) (reward_spec s) (input_spec s)
            (Some x) (_is_done s) (wrapper_frame_skip s).
Definition with_is_done (x : Tensor) (s : Wrapper) : Wrapper :=
  mkWrapper (_env s) (device s) (batch_size s) (reward_spec s) (input_spec s)
            (observation_spec s) (Some x) (wrapper_frame_skip s).
Definition with_frame_skip (x : Z) (s : Wrapper) : Wrapper :=
  mkWrapper (_env s) (device s) (batch_size s) (reward_spec s) (input_spec s)
            (observation_spec s) (_is_done s) (Some x).

(** ** State and exceptions *)

Definition M (A : Type) : Type := World -> Result A * World.

#[global] Instance M_ret : MRet M := fun A a w => (inr a, w).
#[global] Instance M_bind : MBind M := fun A B k m w =>
  match m w with
  | (inl e, w') => (inl e, w')
  | (inr a, w') => k a w'
  end.

Definition raise {A} (e : Exn) : M A := fun w => (inl e, w).
Definition lift {A} (r : Result A) : M A := fun w => (r, w).
Definition gets {A} (f : Wrapper -> A) : M A := fun w => (inr (f (self w)), w).
Definition modify_self (f : Wrapper -> Wrapper) : M unit :=
  fun w => (inr tt, mkWorld (f (self w)) (heap w)).

Definition modify_heap (f : gmap loc TensorDict -> gmap loc TensorDict) : M unit :=
  fun w => (inr tt, mkWorld (self w) (f (heap w))).

(** [self.name] for an attribute that may not have been assigned yet. *)
Definition attr {A} (name : string) (f : Wrapper -> option A) : M A :=
  fun w => match f (self w) with
           | Some a => (inr a, w)
           | None => (inl (AttributeError name), w)
           end.

(** ** Records in the store *)

Definition alloc (td : TensorDict) : M loc :=
  fun w => let l := fresh (dom (heap w)) in
           (inr l, mkWorld (self w) (<[l := td]> (heap w))).

(** [TensorDict(source=..., batch_size=..., device=...)]: a new object
    holding the entries of the source dictionary, refused when an entry
    does not have the batch shape. *)
Definition TensorDict_new (source : list (string * Tensor)) (bs : Size) (dev : Device)
  : M loc :=
  if forallb (fun '(_, t) => has_batch bs t) source
  then alloc (mkTensorDict (list_to_map (prod_map id (at_least_1d bs) <$> source))
                           bs dev)
  else raise (RuntimeError (batch_incongruent_text bs source)).

Definition deref (l : loc) : M TensorDict :=
  fun w => match heap w !! l with
           | Some td => (inr td, w)
           | None => (inl (RuntimeError "no such object"), w)
           end.

(** [td.get(key)] *)
Definition TensorDict_get (l : loc) (key : string) : M Tensor :=
  td ← deref l;
  match td_fields td !! key with
  | Some t => mret t
  | None => raise (KeyError (key_not_found_text key))
  end.

(** [td.set(key, value)]: in-place update of the object at [l], refused
    when the value does not have the record's batch shape. *)
Definition TensorDict_set (l : loc) (key : string) (value : Tensor) : M unit :=
  td ← deref l;
  if has_batch (td_batch_size td) value
  then modify_heap
         (<[l := mkTensorDict
                   (<[key := at_least_1d (td_batch_size td) value]> (td_fields td))
                   (td_batch_size td) (td_device td)]>)
  else raise (RuntimeError (batch_mismatch_text (td_batch_size td) value)).

(** [td.batch_size] *)
Definition TensorDict_batch_size (l : loc) : M Size :=
  td ← deref l; mret (td_batch_size td).

(** ** Calls into the owned environment *)

(** [env.reset()] on the handle held in [self._env]. *)
Definition env_reset : M (Obs * list Q) :=
  env ← attr "_env" _env;
  let '(r, env') := sc2_reset env in
  modify_self (with_env env');; lift r.

(** [env.step(action_np)] *)
Definition env_step (action_np : list Z) : M (Q * bool * gmap string Z) :=
  env ← attr "_env" _env;
  let '(r, env') := sc2_step env action_np in
  modify_self (with_env env');; lift r.

(** ** Base-class services

    [GymLikeEnv] and [EnvBase] live elsewhere in the repository; the
    wrapper calls the following of their members. *)

(** Modelled from the spec: [GymLikeEnv.read_obs], which "wraps returned
    per-agent observations into a container record" whose field name and
    dtype are those the observation spec declares.  The dictionary it
    returns has one entry, under the first name of the observation spec. *)
Definition read_obs (observations : Obs) : M (list (string * Tensor)) :=
  ospec ← attr "observation_spec" observation_spec;
  match ospec with
  | CompositeSpec ((key, sub) :: _) =>
      dt ← lift (spec_dtype sub);
      t ← lift (torch_tensor dt (map (map SFloat) observations));
      mret [(key, t)]
  | _ => raise (ValueError "observation_spec has no entry")
  end.

(** Modelled from the spec: [EnvBase._to_tensor(value, dtype=...)], the
    cast of a native scalar to a tensor of the requested dtype. *)
Definition _to_tensor (value : Scalar) (dtype : DType) : Tensor :=
  mkTensor [] dtype [cast_scalar dtype value].

(** Modelled from the spec: the [action_spec] property accessor of
    [EnvBase], the entry named "action" of the input spec. *)
Definition action_spec : M TensorSpec :=
  ispec ← attr "input_spec" input_spec;
  lift (spec_getitem ispec "action").

(** [d[key]] on a metadata dictionary. *)
Definition dict_getitem (d : gmap string Z) (key : string) : Result Z :=
  match d !! key with
  | Some v => inr v
  | None => inl (KeyError key)
  end.

(** ** SC2Wrapper *)

Inductive Cls := SC2Wrapper_cls | SC2Env_cls.

Definition SC2Wrapper_check_kwargs (kwargs : kwargs_t) : Result unit :=
  match kwargs !! "env" with
  | None => inl (TypeError "Could not find environment key 'env' in kwargs.")
  | Some env =>
      match env with
      | VEnv _ => inr tt
      | _ => inl (TypeError "env is not of type 'smac.env.StarCraft2Env'.")
      end
  end.

Definition SC2Wrapper_build_env (env : PyVal E) : M E :=
  (* StarCraft2Env must be initialized before _make_specs. *)
  match env with
  | VEnv e =>
      let '(r, e') := sc2_reset e in
      _ ← lift r; mret e'
  | _ => raise (AttributeError "reset")
  end.

Definition _make_reward_spec : M TensorSpec :=
  dev ← gets device;
  mret (UnboundedContinuousTensorSpec dev default_dtype).

Definition _make_input_spec (env : E) : M TensorSpec :=
  mask ← lift (torch_tensor torch_bool (map (map SInt) (sc2_get_avail_actions env)));
  dev ← gets device;
  let action_spec := CustomNdOneHotDiscreteTensorSpec mask dev in
  mret (CompositeSpec [("action", action_spec)]).

Definition _make_observation_spec (env : E) : M TensorSpec :=
  let info := sc2_get_env_info env in
  n_agents ← lift (dict_getitem info "n_agents");
  obs_shape ← lift (dict_getitem info "obs_shape");
  let size := [n_agents; obs_shape] in
  dev ← gets device;
  let obs_spec := NdUnboundedContinuousTensorSpec size dev default_dtype in
  mret (CompositeSpec [("observation", obs_spec)]).

Definition _make_specs (env : E) : M unit :=
  (* Extract specs from definition. *)
  rs ← _make_reward_spec;
  modify_self (with_reward_spec rs);;
  (* Extract specs from instance. *)
  ins ← _make_input_spec env;
  modify_self (with_input_spec ins);;
  os ← _make_observation_spec env;
  modify_self (with_observation_spec os).

Definition _init_env : M unit := mret tt.

Definition _set_seed (seed : option Z) : M unit :=
  raise (NotImplementedError "Seed cannot be changed once environment was created.").

Definition _reset : M loc :=
  '(obs, state) ← env_reset;
  (* collect outputs *)
  obs_dict ← read_obs obs;
  bs ← gets batch_size;
  let done := torch_zeros bs torch_bool in
  modify_self (with_is_done done);;
  (* build results *)
  bs ← gets batch_size;
  dev ← gets device;
  tensordict_out ← TensorDict_new obs_dict bs dev;
  TensorDict_set tensordict_out "done" done;;
  mret tensordict_out.

Definition _action_transform (action : Tensor) : M (list Z) :=
  aspec ← action_spec;
  action_np ← lift (to_numpy aspec action);
  mret action_np.

Definition _step (tensordict : loc) : M loc :=
  (* perform actions *)
  action ← TensorDict_get tensordict "action";
  action_np ← _action_transform action;
  (* Actions are validated by the environment. *)
  '(reward, done, info) ← env_step action_np;
  (* collect outputs *)
  env ← attr "_env" _env;
  obs_dict ← read_obs (sc2_get_obs env);
  rspec ← attr "reward_spec" reward_spec;
  rdtype ← lift (spec_dtype rspec);
  let reward := _to_tensor (SFloat reward) rdtype in
  let done := _to_tensor (SBool done) torch_bool in
  (* build results *)
  bs ← TensorDict_batch_size tensordict;
  dev ← gets device;
  tensordict_out ← TensorDict_new obs_dict bs dev;
  TensorDict_set tensordict_out "reward" reward;;
  TensorDict_set tensordict_out "done" done;;
  (* Update available actions mask. *)
  env ← attr "_env" _env;
  ins ← _make_input_spec env;
  modify_self (with_input_spec ins);;
  mret tensordict_out.

Definition get_seed : M (option Z) :=
  env ← attr "_env" _env;
  mret (sc2_seed env).

(** ** SC2Env *)

Definition SC2Env_check_kwargs (kwargs : kwargs_t) : Result unit :=
  match kwargs !! "map_name" with
  | None => inl (TypeError "Expected 'map_name' to be part of kwargs")
  | Some _ => inr tt
  end.

Definition not_installed_message : string :=
  "smac not found, unable to create smac.env.StarCraft2Env. "
  +:+ "Consider installing smac. More info:"
  +:+ " " +:+ git_url
  +:+ ". (Original error message during import: " +:+ IMPORT_ERR smac_py +:+ ").".

Definition SC2Env_build_env (map_name seed : PyVal E) (kwargs : kwargs_t) : M E :=
  if negb (_has_smac smac_py) then raise (RuntimeError not_installed_message)
  else
    modify_self (with_frame_skip 1);;
    env ← lift (sc2_new map_name seed kwargs);
    SC2Wrapper_build_env (VEnv env).

(** ** Construction *)

Definition _check_kwargs (cls : Cls) (kwargs : kwargs_t) : Result unit :=
  match cls with
  | SC2Wrapper_cls => SC2Wrapper_check_kwargs kwargs
  | SC2Env_cls => SC2Env_check_kwargs kwargs
  end.

(** [self._build_env] applied to the unpacked keyword dictionary: the
    entries are bound to the parameters of the method the class resolves
    to. *)
Definition _build_env (cls : Cls) (kwargs : kwargs_t) : M E :=
  match cls with
  | SC2Wrapper_cls =>
      match kwargs !! "env" with
      | Some env => SC2Wrapper_build_env env
      | None => raise (TypeError "_build_env() missing 1 required positional argument: 'env'")
      end
  | SC2Env_cls =>
      match kwargs !! "map_name" with
      | Some map_name =>
          SC2Env_build_env map_name (default VNone (kwargs !! "seed"))
                           (delete "seed" (delete "map_name" kwargs))
      | None => raise (TypeError "_build_env() missing 1 required positional argument: 'map_name'")
      end
  end.

(** Modelled from the spec: the constructor of [GymLikeEnv], which
    "validates that the required external-environment identifier (or
    instance) is present in config", "instantiates (or accepts) the
    external environment", derives the specs from the built environment,
    and runs the initialisation hook.  It runs on the object as the base
    initialiser has left it, and on the keywords that remain once the
    base initialiser has taken its own (device, batch shape and the
    like); which attributes it has assigned and which keywords it takes
    is not in smac.py. *)
Definition GymLikeEnv_init (cls : Cls) (kwargs : kwargs_t) : M unit :=
  lift (_check_kwargs cls kwargs);;
  env ← _build_env cls kwargs;
  modify_self (with_env env);;
  _make_specs env;;
  _init_env.

Definition SC2Wrapper_init (cls : Cls) (env : PyVal E) (kwargs : kwargs_t) : M unit :=
  let kwargs :=
    match env with
    | VNone => kwargs
    | _ => <["env" := env]> kwargs
    end in
  GymLikeEnv_init cls kwargs.

Definition SC2Env_init (map_name : string) (seed : option Z) (kwargs : kwargs_t)
  : M unit :=
  let kwargs := <["map_name" := VStr map_name]> kwargs in
  let kwargs :=
    match seed with
    | Some z => <["seed" := VInt z]> kwargs
    | None => kwargs
    end in
  SC2Wrapper_init SC2Env_cls (default VNone (kwargs !! "env")) (delete "env" kwargs).

(** A starting object for the examples: a device, a batch shape, and a
    store [h].  What else the base initialiser has assigned by then is
    not in smac.py; the statements about construction are made for every
    starting object, and the examples take the one with nothing else
    assigned. *)
Definition blank (dev : Device) (bs : Size) (h : gmap loc TensorDict) : World :=
  mkWorld (mkWrapper None dev bs None None None None None) h.

(** ** Call histories

    What a caller can do with a constructed wrapper, in any order: the
    four operations, and writes to records in the store (the caller owns
    every record, also those the wrapper has returned). *)

Inductive Call :=
| CallReset
| CallStep (tensordict : loc)
| CallSetSeed (seed : option Z)
| CallGetSeed
| CallerStore (l : loc) (td : TensorDict).

Definition run_call (w : World) (c : Call) : World :=
  match c with
  | CallReset => (_reset w).2
  | CallStep td => (_step td w).2
  | CallSetSeed seed => (_set_seed seed w).2
  | CallGetSeed => (get_seed w).2
  | CallerStore l td => mkWorld (self w) (<[l := td]> (heap w))
  end.

Definition run_calls (history : list Call) (w : World) : World :=
  foldl run_call w history.

(** A world in which one of the two constructors has returned normally.
    What the initialisers of the base classes have assigned before the
    constructor body runs is not in smac.py; the object the constructor
    starts from is arbitrary. *)
Inductive constructed : World -> Prop :=
| constructed_SC2Wrapper env kwargs w0 w :
    SC2Wrapper_init SC2Wrapper_cls env kwargs w0 = (inr tt, w) ->
    constructed w
| constructed_SC2Env map_name seed kwargs w0 w :
    SC2Env_init map_name seed kwargs w0 = (inr tt, w) ->
    constructed w.

(** The environment handle has been stored in the wrapper. *)
Definition built (w : World) : Prop := is_Some (_env (self w)).

(** ** Outcome predicates *)

(** [wp m Q w]: running [m] from [w] ends in a result and a world that
    satisfy [Q], whether it returns or raises. *)
Definition wp {A} (m : M A) (Q : Result A -> World -> Prop) (w : World) : Prop :=
  Q (m w).1 (m w).2.

End Wrapper.

(** ** Conformance of values to specs

    The reading of "matches the spec" used by the statements below: a
    tensor conforms to a leaf spec when shape and dtype are the declared
    ones; a mapping conforms to a composite spec when it has exactly the
    declared names and each entry conforms. *)

Definition tensor_matches (s : TensorSpec) (t : Tensor) : bool :=
  match s with
  | UnboundedContinuousTensorSpec _ d => bool_decide (t_dtype t = d)
  | NdUnboundedContinuousTensorSpec shape _ d =>
      bool_decide (t_shape t = shape) && bool_decide (t_dtype t = d)
  | CustomNdOneHotDiscreteTensorSpec mask _ =>
      bool_decide (t_shape t = t_shape mask) && bool_decide (t_dtype t = torch_int64)
  | CompositeSpec _ => false
  end.

Definition record_matches (s : TensorSpec) (fields : gmap string Tensor) : bool :=
  match s with
  | CompositeSpec entries =>
      bool_decide (dom fields = list_to_set entries.*1)
      && forallb (fun '(k, sub) =>
                    match fields !! k with
                    | Some t => tensor_matches sub t
                    | None => false
                    end) entries
  | _ => false
  end.

(** ** What the wrapper relies on from a StarCraft2Env

    The array layout the environment publishes in its metadata is the
    layout of what it returns once the game has been started, and the
    metadata does not change during the life of the handle. *)

Definition obs_layout (info : gmap string Z) (obs : Obs) : Prop :=
  row_lengths_agree obs = true /\
  exists n f, info !! "n_agents" = Some n /\ info !! "obs_shape" = Some f /\
              rows_shape obs = [n; f].

(** A joint action, one index per agent, is allowed by a table of flags
    when each index points at a true flag of its agent's row. *)
Definition index_allowed (row : list bool) (a : Z) : bool :=
  (0 <=? a) && default false (row !! Z.to_nat a).

Definition rows_allow (rows : list (list bool)) (action_np : list Z) : bool :=
  (length action_np =? length rows)%nat
  && forallb (fun '(row, a) => index_allowed row a) (zip rows action_np).

Definition joint_action_available (table : list (list Z)) (action_np : list Z) : bool :=
  rows_allow (map (map (fun z => negb (z =? 0))) table) action_np.

Class StarCraft2EnvLaws (E : Type) `{!StarCraft2Env E} := {
  sc2_started : E -> Prop;
  started_reset : forall e r, (sc2_reset e).1 = inr r -> sc2_started (sc2_reset e).2;
  started_reset_keep : forall e, sc2_started e -> sc2_started (sc2_reset e).2;
  started_step : forall e a, sc2_started e -> sc2_started (sc2_step e a).2;
  info_reset : forall e, sc2_get_env_info (sc2_reset e).2 = sc2_get_env_info e;
  info_step : forall e a, sc2_get_env_info (sc2_step e a).2 = sc2_get_env_info e;
  reset_returns_obs : forall e obs st,
    (sc2_reset e).1 = inr (obs, st) -> obs = sc2_get_obs (sc2_reset e).2;
  started_obs_layout : forall e,
    sc2_started e -> obs_layout (sc2_get_env_info e) (sc2_get_obs e);
  started_avail_layout : forall e,
    sc2_started e -> row_lengths_agree (sc2_get_avail_actions e) = true;
  (* the environment takes every joint action it reports as available *)
  started_accepts : forall e a,
    sc2_started e -> joint_action_available (sc2_get_avail_actions e) a = true ->
    exists r, (sc2_step e a).1 = inr r
}.

Arguments M E : clear implicits.
Arguments World E : clear implicits.
Arguments Wrapper E : clear implicits.

(** The state a constructed wrapper is in, over an environment that keeps
    the contract: the handle is stored and started, and the three specs
    are the ones [_make_specs] derives, the observation shape being the
    one in the metadata of the handle. *)
Definition ready {E} `{!StarCraft2Env E} `{!StarCraft2EnvLaws E} (w : World E) : Prop :=
  exists env n f,
    _env (self w) = Some env /\ sc2_started env /\
    sc2_get_env_info env !! "n_agents" = Some n /\
    sc2_get_env_info env !! "obs_shape" = Some f /\
    reward_spec (self w)
    = Some (UnboundedContinuousTensorSpec (device (self w)) default_dtype) /\
    (exists mask,
        input_spec (self w)
        = Some (CompositeSpec
                  [("action", CustomNdOneHotDiscreteTensorSpec mask (device (self w)))])) /\
    observation_spec (self w)
    = Some (CompositeSpec
              [("observation",
                NdUnboundedContinuousTensorSpec [n; f] (device (self w)) default_dtype)]).

(** ** The program as a caller meets it

    Nothing of the file can be used before the module has been loaded; a
    failure of the load is the outcome of whatever the caller set out to
    do. *)

Definition program_available_envs {R} (o : ImportOutcome) (registry : list (string * R))
  : Result (list string) :=
  match load_module o registry with
  | inl exn => inl exn
  | inr m => inr (available_envs m)
  end.

Definition program_SC2Env {E} `{!StarCraft2Env E} {R}
    (o : ImportOutcome) (registry : list (string * R))
    (map_name : string) (seed : option Z) (kwargs : gmap string (PyVal E)) : M E unit :=
  fun w => match load_module o registry with
           | inl exn => (inl exn, w)
           | inr m => SC2Env_init m map_name seed kwargs w
           end.

Definition program_SC2Wrapper {E} `{!StarCraft2Env E} {R}
    (o : ImportOutcome) (registry : list (string * R))
    (env : PyVal E) (kwargs : gmap string (PyVal E)) : M E unit :=
  fun w => match load_module o registry with
           | inl exn => (inl exn, w)
           | inr m => SC2Wrapper_init m SC2Wrapper_cls env kwargs w
           end.

(** ** A small concrete environment

    Two agents, three actions, two features per agent.  The legal actions
    alternate with the parity of the turn counter; an illegal or
    ill-sized action list is refused by the environment itself. *)

Record ToyEnv := mkToy {
  toy_turn : Z;
  toy_seed : option Z
}.

Definition toy_info : gmap string Z :=
  {[ "n_agents" := 2; "obs_shape" := 2; "n_actions" := 3;
     "state_shape" := 4; "episode_limit" := 3 ]}.

Definition toy_avail (e : ToyEnv) : list (list Z) :=
  if Z.even (toy_turn e) then [[1; 1; 0]; [1; 0; 1]] else [[1; 0; 1]; [1; 1; 0]].

Definition toy_obs (e : ToyEnv) : Obs :=
  [[inject_Z (toy_turn e); 0%Q]; [0%Q; inject_Z (toy_turn e)]].

Definition toy_legal (e : ToyEnv) (actions : list Z) : bool :=
  match actions, toy_avail e with
  | [a0; a1], [r0; r1] =>
      (0 <=? a0) && (0 <=? a1)
      && bool_decide (r0 !! Z.to_nat a0 = Some 1)
      && bool_decide (r1 !! Z.to_nat a1 = Some 1)
  | _, _ => false
  end.

#[global] Instance toy_sc2 : StarCraft2Env ToyEnv := {|
  sc2_new map_name seed kwargs :=
    match map_name with
    | VStr "3m" =>
        inr (mkToy 7 (match seed with VInt z => Some z | _ => None end))
    | _ => inl (EnvError "unknown map")
    end;
  sc2_reset e :=
    let e' := mkToy 0 (toy_seed e) in
    (inr (toy_obs e', [0%Q; 0%Q; 0%Q; 0%Q]), e');
  sc2_step e actions :=
    if toy_legal e actions
    then let e' := mkToy (toy_turn e + 1) (toy_seed e) in
         (inr (1%Q, 3 <=? toy_turn e', ∅), e')
    else (inl (EnvError "illegal action"), e);
  sc2_get_obs := toy_obs;
  sc2_get_avail_actions := toy_avail;
  sc2_get_env_info _ := toy_info;
  sc2_seed := toy_seed
|}.

(** Rows of a rank-2 tensor. *)
Fixpoint chunks {A} (fuel : nat) (width : nat) (l : list A) : list (list A) :=
  match fuel with
  | O => []
  | S fuel' => take width l :: chunks fuel' width (drop width l)
  end.

Definition tensor_rows (t : Tensor) : list (list Scalar) :=
  match t_shape t with
  | [n; m] => chunks (Z.to_nat n) (Z.to_nat m) (t_data t)
  | _ => [t_data t]
  end.

(** Index of the first largest entry. *)
Fixpoint argmax_from (best_i : Z) (best : Z) (i : Z) (l : list Z) : Z :=
  match l with
  | [] => best_i
  | x :: rest =>
      if best <? x then argmax_from i x (i + 1) rest
      else argmax_from best_i best (i + 1) rest
  end.

Definition argmax (l : list Z) : Z :=
  match l with
  | [] => 0
  | x :: rest => argmax_from 0 x 1 rest
  end.

(** A conversion rule in the sense of the spec layer: a one-hot row per
    agent becomes the index of its selected action. *)
#[global] Instance argmax_conversion : SpecConversion := {|
  to_numpy spec value :=
    match spec with
    | CustomNdOneHotDiscreteTensorSpec _ _ =>
        inr (argmax ∘ map scalar_to_Z <$> tensor_rows value)
    | _ => inl (NotImplementedError "to_numpy")
    end
|}.


Definition avail_mask (table : list (list Z)) : Tensor :=
  mkTensor (rows_shape table) torch_bool
    ((fun z => SBool (negb (z =? 0))) <$> concat table).


(** One rendering of the container's texts, for the examples. *)
#[global] Instance plain_texts : TensorDictTexts := {|
  key_not_found_text key := "key not found: " +:+ key;
  batch_mismatch_text bs t := "batch dimension mismatch";
  batch_incongruent_text bs source := "batch sizes are incongruent"
|}.

Definition toy_registry : list (string * unit) := [("3m", tt); ("8m", tt); ("25m", tt)].

Definition toy_module (installed : bool) : ModuleState unit :=
  mkModule unit installed "No module named 'smac'" [("3m", tt); ("8m", tt); ("25m", tt)].

Definition one_hot (rows : list (list Z)) : Tensor :=
  mkTensor (rows_shape rows) torch_int64 (SInt <$> concat rows).

(** A caller's record holding only an action, at location 1. *)
Definition action_record (rows : list (list Z)) : TensorDict :=
  mkTensorDict {[ "action" := one_hot rows ]} [] "cpu".

Definition toy_kwargs : gmap string (PyVal ToyEnv) :=
  {[ "env" := VEnv (mkToy 5 (Some 42)) ]}.

(** The world after [SC2Wrapper(env)] on the toy environment. *)
Definition toy_world : World ToyEnv :=
  snd (SC2Wrapper_init (toy_module true) SC2Wrapper_cls (VEnv (mkToy 5 (Some 42))) ∅
         (blank "cpu" [] ∅)).


(** The caller resets, then stores a record with a legal joint action. *)
Definition toy_history : list Call :=
  [CallReset; CallerStore 5%positive (action_record [[0; 1; 0]; [1; 0; 0]])].

Definition toy_ready : World ToyEnv := run_calls toy_history toy_world.

(** The same, with an action the environment refuses at turn 0. *)
Definition toy_illegal : World ToyEnv :=
  run_calls [CallReset; CallerStore 5%positive (action_record [[0; 0; 1]; [1; 0; 0]])]
            toy_world.


(** A wrapper with batch shape [[3]] over the same environment. *)
Definition toy_world3 : World ToyEnv :=
  snd (SC2Wrapper_init (toy_module true) SC2Wrapper_cls (VEnv (mkToy 5 (Some 42))) ∅
         (blank "cpu" [3] ∅)).


Definition toy_env0 : ToyEnv := mkToy 0 (Some 42).


(** The availability mask at an even turn. *)
Definition toy_mask0 : Tensor :=
  mkTensor [2; 3] torch_bool
    [SBool true; SBool true; SBool false; SBool true; SBool false; SBool true].

Definition toy_action_spec : TensorSpec :=
  CustomNdOneHotDiscreteTensorSpec toy_mask0 "cpu".

(** ** A second concrete environment, one that can fail

    The game of the first one behind a connection that allows a fixed
    number of resets, and optionally with incomplete metadata. *)

Record ProbeEnv := mkProbe {
  probe_game : ToyEnv;
  probe_resets_left : nat;
  probe_bare : bool
}.

#[global] Instance probe_sc2 : StarCraft2Env ProbeEnv := {|
  sc2_new map_name seed kwargs := inl (EnvError "unknown map");
  sc2_reset e :=
    match probe_resets_left e with
    | O => (inl (EnvError "connection lost"), e)
    | S remaining =>
        let game := mkToy 0 (toy_seed (probe_game e)) in
        (inr (toy_obs game, [0%Q; 0%Q; 0%Q; 0%Q]), mkProbe game remaining (probe_bare e))
    end;
  sc2_step e actions :=
    let '(r, game) := sc2_step (probe_game e) actions in
    (r, mkProbe game (probe_resets_left e) (probe_bare e));
  sc2_get_obs e := toy_obs (probe_game e);
  sc2_get_avail_actions e := toy_avail (probe_game e);
  sc2_get_env_info e := if probe_bare e then {[ "n_agents" := 2 ]} else toy_info;
  sc2_seed e := toy_seed (probe_game e)
|}.

(** The world after [SC2Wrapper(env)] on a handle with one reset left:
    construction uses it up. *)
Definition probe_world : World ProbeEnv :=
  snd (SC2Wrapper_init (toy_module true) SC2Wrapper_cls
         (VEnv (mkProbe (mkToy 5 None) 1 false)) ∅ (blank "cpu" [] ∅)).



(** * Reasoning about runs *)

Section Runs.

Context {E : Type} {Henv : StarCraft2Env E} {Hconv : SpecConversion}.
Context {Htexts : TensorDictTexts}.
Context {R : Type} (smac_py : ModuleState R).

Implicit Types (w : World E) (l : loc) (e : Exn).

Lemma wp_bind {A B} (m : M E A) (k : A -> M E B) Q w :
  wp m (fun r w' => match r with
                    | inl e => Q (inl e) w'
                    | inr a => wp (k a) Q w'
                    end) w ->
  wp (m ≫= k) Q w.
Proof.
  unfold wp, mbind, M_bind. destruct (m w) as [[e|a] w']; simpl; auto.
Qed.

Lemma wp_ret {A} (a : A) (Q : Result A -> World E -> Prop) w :
  Q (inr a) w -> wp (mret a) Q w.
Proof. auto. Qed.

Lemma wp_raise {A} e (Q : Result A -> World E -> Prop) w :
  Q (inl e) w -> wp (raise e) Q w.
Proof. auto. Qed.

Lemma wp_lift {A} (r : Result A) (Q : Result A -> World E -> Prop) w :
  Q r w -> wp (lift r) Q w.
Proof. auto. Qed.

Lemma wp_gets {A} (f : Wrapper E -> A) (Q : Result A -> World E -> Prop) w :
  Q (inr (f (self w))) w -> wp (gets f) Q w.
Proof. auto. Qed.

Lemma wp_attr {A} name (f : Wrapper E -> option A) (Q : Result A -> World E -> Prop) w :
  match f (self w) with
  | Some a => Q (inr a) w
  | None => Q (inl (AttributeError name)) w
  end ->
  wp (attr name f) Q w.
Proof. unfold wp, attr. destruct (f (self w)); auto. Qed.

Lemma wp_modify_self f (Q : Result unit -> World E -> Prop) w :
  Q (inr tt) (mkWorld (f (self w)) (heap w)) -> wp (modify_self f) Q w.
Proof. auto. Qed.

Lemma wp_modify_heap f (Q : Result unit -> World E -> Prop) w :
  Q (inr tt) (mkWorld (self w) (f (heap w))) -> wp (modify_heap f) Q w.
Proof. auto. Qed.

Lemma wp_deref l (Q : Result TensorDict -> World E -> Prop) w :
  match heap w !! l with
  | Some td => Q (inr td) w
  | None => Q (inl (RuntimeError "no such object")) w
  end ->
  wp (deref l) Q w.
Proof. unfold wp, deref. destruct (heap w !! l); auto. Qed.

Lemma wp_alloc td (Q : Result loc -> World E -> Prop) w :
  Q (inr (fresh (dom (heap w))))
    (mkWorld (self w) (<[fresh (dom (heap w)) := td]> (heap w))) ->
  wp (alloc td) Q w.
Proof. auto. Qed.

Lemma wp_elim {A} (m : M E A) Q w r w' :
  wp m Q w -> m w = (r, w') -> Q r w'.
Proof. unfold wp. intros H Heq. by rewrite Heq in H. Qed.

(** Case split on a scrutinee, unless a hypothesis already decides it. *)
Ltac wp_case x :=
  first [ match goal with H : x = _ |- _ => rewrite H end
        | destruct x eqn:? ].

(** One symbolic step of a run. *)
Ltac wp_step :=
  lazymatch goal with
  | |- wp (_ ≫= _) _ _ => apply wp_bind
  | |- wp (mret _) _ _ => apply wp_ret
  | |- wp (raise _) _ _ => apply wp_raise
  | |- wp (lift _) _ _ => apply wp_lift
  | |- wp (gets _) _ _ => apply wp_gets
  | |- wp (attr _ _) _ _ => apply wp_attr
  | |- wp (modify_self _) _ _ => apply wp_modify_self
  | |- wp (modify_heap _) _ _ => apply wp_modify_heap
  | |- wp (deref _) _ _ => apply wp_deref
  | |- wp (alloc _) _ _ => apply wp_alloc
  | |- wp (TensorDict_new _ _ _) _ _ => unfold TensorDict_new
  | |- wp (TensorDict_get _ _) _ _ => unfold TensorDict_get
  | |- wp (TensorDict_set _ _ _) _ _ => unfold TensorDict_set
  | |- wp (TensorDict_batch_size _) _ _ => unfold TensorDict_batch_size
  | |- wp (env_step _) _ _ => unfold env_step
  | |- wp env_reset _ _ => unfold env_reset
  | |- wp (read_obs _) _ _ => unfold read_obs
  | |- wp action_spec _ _ => unfold action_spec
  | |- wp (_action_transform _) _ _ => unfold _action_transform
  | |- wp (_make_input_spec _) _ _ => unfold _make_input_spec
  | |- wp (_make_observation_spec _) _ _ => unfold _make_observation_spec
  | |- wp _make_reward_spec _ _ => unfold _make_reward_spec
  | |- wp (_make_specs _) _ _ => unfold _make_specs
  | |- wp _init_env _ _ => unfold _init_env
  | |- wp (SC2Wrapper_build_env _) _ _ => unfold SC2Wrapper_build_env
  | |- wp (SC2Env_build_env _ _ _ _) _ _ => unfold SC2Env_build_env
  | |- wp (_build_env _ _ _) _ _ => unfold _build_env
  | |- wp (GymLikeEnv_init _ _ _) _ _ => unfold GymLikeEnv_init
  | |- wp (let '(_, _) := ?x in _) _ _ => wp_case x
  | |- wp (match ?x with _ => _ end) _ _ => wp_case x
  | |- match ?x with _ => _ end => wp_case x
  end;
  cbn [self heap _env device batch_size reward_spec input_spec observation_spec
       _is_done wrapper_frame_skip with_env with_reward_spec with_input_spec
       with_observation_spec with_is_done with_frame_skip
       td_fields td_batch_size td_device];
  rewrite ?lookup_insert_eq;
  cbn [self heap _env device batch_size reward_spec input_spec observation_spec
       _is_done wrapper_frame_skip with_env with_reward_spec with_input_spec
       with_observation_spec with_is_done with_frame_skip
       td_fields td_batch_size td_device].

Ltac wp_run := repeat wp_step.


Lemma wp_eq {A} (m : M E A) w r0 w0 :
  wp m (fun r w' => r = r0 /\ w' = w0) w -> m w = (r0, w0).
Proof. unfold wp. destruct (m w) as [r w']. simpl. by intros [-> ->]. Qed.

Lemma wp_run_inr {A} (m : M E A) (P : A -> World E -> Prop) w :
  wp m (fun r w' => forall a, r = inr a -> P a w') w ->
  forall a w', m w = (inr a, w') -> P a w'.
Proof. intros Hwp a w' Hrun. exact (wp_elim _ _ _ _ _ Hwp Hrun a eq_refl). Qed.

(** ** Tensors built from rows *)

Lemma torch_tensor_inr d rows t :
  torch_tensor d rows = inr t ->
  row_lengths_agree rows = true /\
  t = mkTensor (rows_shape rows) d (cast_scalar d <$> concat rows).
Proof.
  unfold torch_tensor. destruct (row_lengths_agree rows); [|discriminate].
  intros [= <-]. auto.
Qed.

Lemma concat_map_map {A B} (f : A -> B) (rows : list (list A)) :
  concat (map (map f) rows) = f <$> concat rows.
Proof.
  induction rows as [|r rows IH]; simpl; [reflexivity|].
  rewrite IH. by rewrite fmap_app.
Qed.

Lemma rows_shape_map {A B} (f : A -> B) (rows : list (list A)) :
  rows_shape (map (map f) rows) = rows_shape rows.
Proof. destruct rows; simpl; [reflexivity|]. by rewrite !length_map. Qed.

Lemma row_lengths_agree_map {A B} (f : A -> B) (rows : list (list A)) :
  row_lengths_agree (map (map f) rows) = row_lengths_agree rows.
Proof.
  destruct rows as [|r rows]; simpl; [reflexivity|].
  rewrite length_map. induction rows as [|r' rows IH]; simpl; [reflexivity|].
  by rewrite length_map, IH.
Qed.

Lemma torch_tensor_bool_inr (rows : list (list Z)) t :
  torch_tensor torch_bool (map (map SInt) rows) = inr t ->
  row_lengths_agree rows = true /\
  t = mkTensor (rows_shape rows) torch_bool
        ((fun z => SBool (negb (z =? 0))) <$> concat rows).
Proof.
  intros [Hag ->]%torch_tensor_inr.
  rewrite row_lengths_agree_map in Hag. split; [exact Hag|].
  rewrite rows_shape_map, concat_map_map, <- list_fmap_compose. reflexivity.
Qed.

(** ** The catalog *)

(** C7: reading the catalog goes through loading the module.  With the
    library installed the catalog is the list of names of the map
    registry, in registry order.  With the library not installed there
    is no catalog to read: the class statement that holds
    [available_envs] raises NameError while it defines [__init__], whose
    annotation names [smac].  The empty catalog that [_get_envs] prepares
    is reached only when the package is there and the import of the map
    registry alone has failed. *)
Theorem catalog_needs_loaded_module (err : string) (registry : list (string * R)) :
  program_available_envs (smac_not_installed err) registry
  = inl (NameError "name 'smac' is not defined") /\
  program_available_envs (smac_maps_missing err) registry = inr [] /\
  program_available_envs imports_ok registry = inr registry.*1.
Proof.
  unfold program_available_envs, load_module, available_envs, _get_envs.
  repeat split.
Qed.

(** ** Seeding *)

Lemma reset_built w : built w -> built (_reset w).2.
Proof.
  intros Hb. change (wp _reset (fun _ w' => built w') w).
  unfold _reset. wp_run; unfold built; cbn; eauto.
Qed.

Lemma step_built td w : built w -> built (_step td w).2.
Proof.
  intros Hb. change (wp (_step td) (fun _ w' => built w') w).
  unfold _step. wp_run; unfold built; cbn; eauto.
Qed.

Lemma run_call_built w c : built w -> built (run_call w c).
Proof.
  destruct c; simpl; auto using reset_built, step_built.
  intros Hb. unfold get_seed.
  change (wp (env ← attr "_env" _env; mret (sc2_seed env)) (fun _ w' => built w') w).
  wp_run; unfold built; cbn; eauto.
Qed.

Lemma run_calls_built history w : built w -> built (run_calls history w).
Proof.
  revert w. induction history as [|c history IH]; intros w Hb; [exact Hb|].
  apply IH, run_call_built, Hb.
Qed.

Lemma init_built cls kwargs w :
  wp (GymLikeEnv_init smac_py cls kwargs) (fun r w' => r = inr tt -> built w') w.
Proof.
  wp_run; try discriminate; intros _; unfold built; cbn; eauto.
Qed.

Lemma constructed_built w : constructed smac_py w -> built w.
Proof.
  intros [env kwargs w0 w' Hrun | map_name seed kwargs w0 w' Hrun];
    unfold SC2Env_init, SC2Wrapper_init in Hrun;
    exact (wp_elim _ _ _ _ _ (init_built _ _ _) Hrun eq_refl).
Qed.

(** C5: whatever the caller has done with a constructed wrapper,
    [_set_seed] raises the same "cannot be changed" exception and changes
    nothing, and [get_seed] returns what the environment's [seed()]
    returns, also changing nothing. *)
Theorem seed_is_fixed w0 history seed :
  constructed smac_py w0 ->
  _set_seed seed (run_calls history w0)
  = (inl (NotImplementedError "Seed cannot be changed once environment was created."),
     run_calls history w0) /\
  exists env, _env (self (run_calls history w0)) = Some env /\
              get_seed (run_calls history w0)
              = (inr (sc2_seed env), run_calls history w0).
Proof.
  intros Hc. split; [reflexivity|].
  destruct (run_calls_built history w0 (constructed_built _ Hc)) as [env Henv'].
  exists env. split; [exact Henv'|].
  unfold get_seed, mbind, M_bind, attr. rewrite Henv'. reflexivity.
Qed.

(** ** The step *)

(** C3: when [_step] returns, the input spec stored in the wrapper is the
    one derived from the available actions of the environment as it is
    after the environment's own step on the converted action; it replaces
    whatever input spec was there before, and its mask holds one flag per
    agent and action, true where the environment reports the action as
    available. *)
Theorem step_rederives_input_spec td w out w' :
  _step td w = (inr out, w') ->
  exists rec action ispec aspec action_np env env' mask,
    heap w !! td = Some rec /\ td_fields rec !! "action" = Some action /\
    input_spec (self w) = Some ispec /\ spec_getitem ispec "action" = inr aspec /\
    to_numpy aspec action = inr action_np /\
    _env (self w) = Some env /\ env' = (sc2_step env action_np).2 /\
    _env (self w') = Some env' /\
    mask = mkTensor (rows_shape (sc2_get_avail_actions env')) torch_bool
             ((fun z => SBool (negb (z =? 0))) <$> concat (sc2_get_avail_actions env')) /\
    input_spec (self w') =
      Some (CompositeSpec
              [("action", CustomNdOneHotDiscreteTensorSpec mask (device (self w')))]).
Proof.
  revert out w'. apply wp_run_inr.
  unfold _step. wp_run; intros ? [=]; subst.
  match goal with
  | H : torch_tensor torch_bool _ = inr ?m |- _ =>
      apply torch_tensor_bool_inr in H; destruct H as [_ ->]
  end.
  match goal with H : sc2_step _ _ = _ |- _ => rename H into Hstep end.
  eexists _, _, _, _, _, _, _, _. repeat split; eauto.
  - by rewrite Hstep.
  - by rewrite Hstep.
Qed.

(** C9: once the record holds an action and the conversion rule has
    produced the native action, the environment's [step] is called on
    exactly that value whatever it is: the handle held afterwards is the
    one [step] leaves.  An exception raised by that call is the outcome of
    [_step], the same exception value, with nothing else changed. *)
Theorem step_delegates_validation td w rec action ispec aspec action_np env :
  heap w !! td = Some rec -> td_fields rec !! "action" = Some action ->
  input_spec (self w) = Some ispec -> spec_getitem ispec "action" = inr aspec ->
  to_numpy aspec action = inr action_np ->
  _env (self w) = Some env ->
  _env (self (_step td w).2) = Some (sc2_step env action_np).2 /\
  forall exn, (sc2_step env action_np).1 = inl exn ->
    _step td w = (inl exn, mkWorld (with_env (sc2_step env action_np).2 (self w)) (heap w)).
Proof.
  intros Hrec Hact Hispec Haspec Hconv' Henv'. split.
  - change (wp (_step td) (fun _ w' => _env (self w') = Some (sc2_step env action_np).2) w).
    unfold _step. wp_run; reflexivity.
  - intros exn Hexn.
    unfold _step, TensorDict_get, _action_transform, action_spec, env_step,
      deref, attr, lift, modify_self, mbind, M_bind, mret, M_ret, raise.
    rewrite Hrec, Hact, Hispec, Haspec, Hconv', Henv'.
    destruct (sc2_step env action_np) as [r env'] eqn:Hstep. simpl in *.
    by rewrite Hexn.
Qed.

(** ** Construction *)

Lemma scenario_guard map_name seed (kwargs : gmap string (PyVal E)) w :
  _has_smac smac_py = false ->
  (forall mn sd kw,
      SC2Env_build_env smac_py mn sd kw w
      = (inl (RuntimeError (not_installed_message smac_py)), w)) /\
  SC2Env_init smac_py map_name seed kwargs w
  = (inl (RuntimeError (not_installed_message smac_py)), w) /\
  not_installed_message smac_py
  = "smac not found, unable to create smac.env.StarCraft2Env. "
    +:+ "Consider installing smac. More info: https://github.com/oxwhirl/smac"
    +:+ ". (Original error message during import: " +:+ IMPORT_ERR smac_py +:+ ").".
Proof.
  intros Hno. split; [|split].
  - intros mn sd kw. unfold SC2Env_build_env. by rewrite Hno.
  - unfold SC2Env_init, SC2Wrapper_init, GymLikeEnv_init, mbind, M_bind, lift,
      _check_kwargs, SC2Env_check_kwargs, _build_env, SC2Env_build_env.
    rewrite Hno.
    destruct seed; destruct (default VNone _);
      rewrite ?(lookup_insert_ne _ "env" "map_name") by done;
      rewrite (lookup_delete_ne _ "env" "map_name") by done;
      rewrite ?(lookup_insert_ne _ "seed" "map_name") by done;
      rewrite lookup_insert_eq; reflexivity.
  - reflexivity.
Qed.

(** C6: the two validators.  [SC2Wrapper] refuses a configuration without
    an "env" entry and, the library being importable, one whose "env"
    entry is not a [StarCraft2Env]; it accepts one that is.  [SC2Env]
    refuses a configuration without a "map_name" entry and accepts any
    that has one.  A refusal is the outcome of the constructor, which
    then has changed nothing; after an acceptance the constructor goes on
    to build the environment. *)
Theorem construction_validates_config (kwargs : gmap string (PyVal E)) :
  (kwargs !! "env" = None ->
   SC2Wrapper_check_kwargs kwargs
   = inl (TypeError "Could not find environment key 'env' in kwargs.")) /\
  (forall v, _has_smac smac_py = true -> kwargs !! "env" = Some v ->
             (forall env, v <> VEnv env) ->
   SC2Wrapper_check_kwargs kwargs
   = inl (TypeError "env is not of type 'smac.env.StarCraft2Env'.")) /\
  (forall env, _has_smac smac_py = true -> kwargs !! "env" = Some (VEnv env) ->
   SC2Wrapper_check_kwargs kwargs = inr tt) /\
  (kwargs !! "map_name" = None ->
   SC2Env_check_kwargs kwargs
   = inl (TypeError "Expected 'map_name' to be part of kwargs")) /\
  (is_Some (kwargs !! "map_name") -> SC2Env_check_kwargs kwargs = inr tt) /\
  (forall cls exn w, _check_kwargs cls kwargs = inl exn ->
   GymLikeEnv_init smac_py cls kwargs w = (inl exn, w)) /\
  (forall cls w, _check_kwargs cls kwargs = inr tt ->
   GymLikeEnv_init smac_py cls kwargs w
   = (env ← _build_env smac_py cls kwargs;
      modify_self (with_env env);; _make_specs env;; _init_env) w).
Proof.
  unfold SC2Wrapper_check_kwargs, SC2Env_check_kwargs. repeat split.
  - by intros ->.
  - intros v _ -> Hv. destruct v; try reflexivity. by destruct (Hv e).
  - by intros env _ ->.
  - by intros ->.
  - by intros [v ->].
  - intros cls exn w Hc. unfold GymLikeEnv_init, mbind, M_bind, lift. by rewrite Hc.
  - intros cls w Hc. unfold GymLikeEnv_init. unfold mbind at 1, M_bind at 1, lift.
    by rewrite Hc.
Qed.

(** C8: on an environment whose metadata has the two entries and whose
    availability table is rectangular, [_make_specs] returns normally and
    has assigned: as reward spec the unbounded continuous spec of the
    default real dtype; as input spec a composite with the single entry
    "action", a one-hot spec masked by the availability table, one row
    per agent; as observation spec a composite with the single entry
    "observation", an unbounded continuous spec of shape (n_agents,
    obs_shape).  Nothing else in the wrapper changes. *)
Theorem make_specs_derives env w n_agents obs_shape :
  sc2_get_env_info env !! "n_agents" = Some n_agents ->
  sc2_get_env_info env !! "obs_shape" = Some obs_shape ->
  row_lengths_agree (sc2_get_avail_actions env) = true ->
  let dev := device (self w) in
  let mask := mkTensor (rows_shape (sc2_get_avail_actions env)) torch_bool
                ((fun z => SBool (negb (z =? 0))) <$> concat (sc2_get_avail_actions env)) in
  _make_specs env w
  = (inr tt,
     mkWorld
       (mkWrapper (_env (self w)) dev (batch_size (self w))
          (Some (UnboundedContinuousTensorSpec dev torch_float32))
          (Some (CompositeSpec [("action", CustomNdOneHotDiscreteTensorSpec mask dev)]))
          (Some (CompositeSpec
                   [("observation",
                     NdUnboundedContinuousTensorSpec [n_agents; obs_shape] dev
                                                     torch_float32)]))
          (_is_done (self w)) (wrapper_frame_skip (self w)))
       (heap w)).
Proof.
  intros Hn Hf Hrect dev mask.
  assert (Hmask : torch_tensor torch_bool (map (map SInt) (sc2_get_avail_actions env))
                  = inr mask).
  { unfold torch_tensor. rewrite row_lengths_agree_map, Hrect.
    by rewrite rows_shape_map, concat_map_map, <- list_fmap_compose. }
  assert (Hn' : dict_getitem (sc2_get_env_info env) "n_agents" = inr n_agents)
    by (unfold dict_getitem; by rewrite Hn).
  assert (Hf' : dict_getitem (sc2_get_env_info env) "obs_shape" = inr obs_shape)
    by (unfold dict_getitem; by rewrite Hf).
  apply wp_eq. wp_run. split; reflexivity.
Qed.

(** ** The store *)

Lemma fresh_not_allocated (h : gmap loc TensorDict) : h !! fresh (dom h) = None.
Proof. apply not_elem_of_dom, is_fresh. Qed.

Lemma allocated_not_fresh (h : gmap loc TensorDict) l x :
  h !! l = Some x -> fresh (dom h) <> l.
Proof. intros Hl <-. by rewrite fresh_not_allocated in Hl. Qed.

Lemma step_frame td w l x :
  heap w !! l = Some x -> heap (_step td w).2 !! l = Some x.
Proof.
  intros Hl. pose proof (allocated_not_fresh _ _ _ Hl) as Hne.
  change (wp (_step td) (fun _ w' => heap w' !! l = Some x) w).
  unfold _step. wp_run; cbn; rewrite ?lookup_insert_ne by exact Hne; exact Hl.
Qed.

Lemma step_allocates td w rec out :
  heap w !! td = Some rec -> (_step td w).1 = inr out ->
  heap w !! out = None /\
  exists o, heap (_step td w).2 !! out = Some o /\ td_batch_size o = td_batch_size rec.
Proof.
  intros Hrec. revert out.
  change (wp (_step td)
            (fun r w' => forall out, r = inr out ->
               heap w !! out = None /\
               exists o, heap w' !! out = Some o /\ td_batch_size o = td_batch_size rec) w).
  unfold _step. wp_run; intros ? [=]; subst; cbn.
  split; [apply fresh_not_allocated|].
  rewrite lookup_insert_eq. eauto.
Qed.

Lemma step_reads_action_only td w rec rec2 :
  heap w !! td = Some rec ->
  td_fields rec2 !! "action" = td_fields rec !! "action" ->
  td_batch_size rec2 = td_batch_size rec ->
  wp (_step td)
     (fun r w' =>
        wp (_step td)
           (fun r2 w2' =>
              r2 = r /\ self w2' = self w' /\
              forall out, r = inr out -> heap w2' !! out = heap w' !! out)
           (mkWorld (self w) (<[td := rec2]> (heap w))))
     w.
Proof.
  intros Hrec Hact Hbs.
  destruct rec2 as [fields2 bs2 dev2]. simpl in Hact, Hbs. subst bs2.
  assert (Hdom : dom (<[td := mkTensorDict fields2 (td_batch_size rec) dev2]> (heap w))
                 = dom (heap w)).
  { apply dom_insert_lookup_L. eauto. }
  unfold _step at 1. wp_run.
  all: unfold _step; wp_run.
  all: rewrite ?Hdom.
  all: repeat split; try reflexivity; intros ? [=]; subst; cbn.
  rewrite !lookup_insert_eq. reflexivity.
Qed.

(** C10: [_step] never writes to a record that exists when it is called,
    the incoming one included; the record it returns is a new object of
    the store whose batch size is that of the incoming record; and of the
    incoming record's fields it reads only "action": with any other
    record of the same batch size and the same "action" entry in its
    place, the result, the wrapper and the returned record are the same. *)
Theorem step_leaves_input_record td w rec :
  heap w !! td = Some rec ->
  (forall l x, heap w !! l = Some x -> heap (_step td w).2 !! l = Some x) /\
  (forall out, (_step td w).1 = inr out ->
     heap w !! out = None /\
     exists o, heap (_step td w).2 !! out = Some o /\
               td_batch_size o = td_batch_size rec) /\
  (forall rec2,
     td_fields rec2 !! "action" = td_fields rec !! "action" ->
     td_batch_size rec2 = td_batch_size rec ->
     let w2 := mkWorld (self w) (<[td := rec2]> (heap w)) in
     (_step td w2).1 = (_step td w).1 /\
     self (_step td w2).2 = self (_step td w).2 /\
     forall out, (_step td w).1 = inr out ->
       heap (_step td w2).2 !! out = heap (_step td w).2 !! out).
Proof.
  intros Hrec. split; [|split].
  - intros l x. apply step_frame.
  - intros out. by apply step_allocates.
  - intros rec2 Hact Hbs. exact (step_reads_action_only td w rec rec2 Hrec Hact Hbs).
Qed.

(** ** Wrappers over an environment that keeps the contract *)

Section Contract.

Context {Hlaws : StarCraft2EnvLaws E}.

Lemma started_info env :
  sc2_started env ->
  exists n f, sc2_get_env_info env !! "n_agents" = Some n /\
              sc2_get_env_info env !! "obs_shape" = Some f.
Proof.
  intros Hst. destruct (started_obs_layout env Hst) as (_ & n & f & Hn & Hf & _).
  eauto.
Qed.

Lemma ready_reset w : ready w -> ready (_reset w).2.
Proof.
  intros (env & n & f & Henv' & Hst & Hn & Hf & Hr & (mask & Hi) & Ho).
  change (wp _reset (fun _ w' => ready w') w).
  unfold _reset. wp_run;
    match goal with
    | H : sc2_reset env = (_, ?env') |- _ =>
        pose proof (started_reset_keep env Hst) as Hst';
        pose proof (info_reset env) as Hinfo;
        rewrite H in Hst', Hinfo; simpl in Hst', Hinfo;
        exists env', n, f; cbn; rewrite Hinfo; eauto 10
    end.
Qed.

Lemma ready_step td w : ready w -> ready (_step td w).2.
Proof.
  intros (env & n & f & Henv' & Hst & Hn & Hf & Hr & (mask & Hi) & Ho).
  change (wp (_step td) (fun _ w' => ready w') w).
  unfold _step. wp_run;
    first [ match goal with
            | H : sc2_step env ?a = (_, ?env') |- _ =>
                pose proof (started_step env a Hst) as Hst';
                pose proof (info_step env a) as Hinfo;
                rewrite H in Hst', Hinfo; simpl in Hst', Hinfo;
                exists env', n, f; cbn; rewrite Hinfo; eauto 10
            end
          | exists env, n, f; cbn; eauto 10 ].
Qed.

Lemma ready_run_call w c : ready w -> ready (run_call w c).
Proof.
  destruct c; simpl; auto using ready_reset, ready_step.
  intros (env & n & f & Henv' & Hrest).
  unfold get_seed, mbind, M_bind, attr. rewrite Henv'. simpl.
  exists env, n, f. eauto.
Qed.

Lemma ready_run_calls history w : ready w -> ready (run_calls history w).
Proof.
  revert w. induction history as [|c history IH]; intros w Hr; [exact Hr|].
  apply IH, ready_run_call, Hr.
Qed.

Lemma dict_getitem_inr (d : gmap string Z) key v :
  dict_getitem d key = inr v -> d !! key = Some v.
Proof. unfold dict_getitem. destruct (d !! key); by intros [= <-]. Qed.

Lemma init_ready cls kwargs w :
  wp (GymLikeEnv_init smac_py cls kwargs) (fun r w' => r = inr tt -> ready w') w.
Proof.
  wp_run; try discriminate; intros _;
    match goal with
    | H : sc2_reset ?e = (inr ?p, ?e') |- _ =>
        pose proof (started_reset e p) as Hst;
        rewrite H in Hst; specialize (Hst eq_refl); simpl in Hst;
        exists e'
    end;
    repeat match goal with
           | H : dict_getitem _ _ = inr _ |- _ => apply dict_getitem_inr in H
           end;
    eexists _, _; cbn; eauto 10.
Qed.

Lemma constructed_ready w : constructed smac_py w -> ready w.
Proof.
  intros [env kwargs w0 w' Hrun | map_name seed kwargs w0 w' Hrun];
    unfold SC2Env_init, SC2Wrapper_init in Hrun;
    exact (wp_elim _ _ _ _ _ (init_ready _ _ _) Hrun eq_refl).
Qed.

Lemma layout_tensor (info : gmap string Z) (obs : Obs) d n f :
  obs_layout info obs ->
  info !! "n_agents" = Some n -> info !! "obs_shape" = Some f ->
  torch_tensor d (map (map SFloat) obs)
  = inr (mkTensor [n; f] d (cast_scalar d ∘ SFloat <$> concat obs)).
Proof.
  intros (Hag & n' & f' & Hn' & Hf' & Hshape) Hn Hf.
  unfold torch_tensor.
  rewrite row_lengths_agree_map, Hag, rows_shape_map, Hshape.
  rewrite concat_map_map, <- list_fmap_compose. congruence.
Qed.

Lemma observation_record_matches shape dev d key (t : Tensor) :
  t_shape t = shape -> t_dtype t = d ->
  record_matches
    (CompositeSpec [(key, NdUnboundedContinuousTensorSpec shape dev d)])
    {[key := t]} = true.
Proof.
  intros Hs Hd. unfold record_matches. simpl.
  rewrite lookup_singleton_eq. simpl.
  rewrite dom_singleton_L, (right_id_L ∅ (∪)).
  rewrite !bool_decide_eq_true_2 by done. reflexivity.
Qed.

Lemma torch_zeros_bool_false size :
  Forall (fun s => s = SBool false) (t_data (torch_zeros size torch_bool)).
Proof. unfold torch_zeros. simpl. apply Forall_replicate. reflexivity. Qed.


Lemma has_batch_zeros bs d : has_batch bs (torch_zeros bs d) = true.
Proof.
  unfold has_batch, torch_zeros. cbn [t_shape].
  apply bool_decide_eq_true_2. by apply take_ge.
Qed.

Lemma at_least_1d_zeros bs d :
  at_least_1d bs (torch_zeros bs d) = unsqueeze_last (torch_zeros bs d).
Proof. unfold at_least_1d. simpl. by rewrite decide_True. Qed.

(** The batch shapes under which the container takes a rank-2 tensor as
    it is: the empty one and the one made of the first dimension. *)
Lemma rank2_fits bs n f d data :
  bs = [] \/ bs = [n] ->
  has_batch bs (mkTensor [n; f] d data) = true /\
  at_least_1d bs (mkTensor [n; f] d data) = mkTensor [n; f] d data.
Proof.
  intros [-> | ->]; unfold has_batch, at_least_1d;
    (split; [apply bool_decide_eq_true_2; reflexivity | reflexivity]).
Qed.

(** C1, as the code has it: a wrapper that a constructor has returned,
    after any history of calls, over an environment that keeps the
    contract, and with a batch shape under which the container takes the
    observations (the empty one, or the number of agents).  If the
    environment's reset returns, [_reset] returns a new record with the
    wrapper's batch shape in which: the fields other than "done" conform
    to the observation spec in names, shapes and dtypes; "done" is a
    boolean tensor with every entry false whose shape is the batch shape
    followed by one dimension of size 1, the form in which the container
    keeps a tensor that has only the batch dimensions. *)
Theorem reset_record_conforms w0 history env :
  constructed smac_py w0 ->
  _env (self (run_calls history w0)) = Some env ->
  (exists r, (sc2_reset env).1 = inr r) ->
  (batch_size (self (run_calls history w0)) = [] \/
   exists n, sc2_get_env_info env !! "n_agents" = Some n /\
             batch_size (self (run_calls history w0)) = [n]) ->
  let w := run_calls history w0 in
  exists out rec ospec done,
    (_reset w).1 = inr out /\
    heap w !! out = None /\ heap (_reset w).2 !! out = Some rec /\
    td_batch_size rec = batch_size (self w) /\
    observation_spec (self (_reset w).2) = Some ospec /\
    record_matches ospec (delete "done" (td_fields rec)) = true /\
    td_fields rec !! "done" = Some done /\
    t_dtype done = torch_bool /\ t_shape done = (batch_size (self w) ++ [1])%list /\
    length (t_data done) = numel (batch_size (self w)) /\
    Forall (fun s => s = SBool false) (t_data done).
Proof.
  intros Hc Henv' [[obs st] Hreset] Hbs w.
  pose proof (ready_run_calls history w0 (constructed_ready _ Hc)) as Hready.
  fold w in Hready, Henv', Hbs.
  destruct Hready as (env0 & n & f & Henv0 & Hst & Hn & Hf & Hr & (mask & Hi) & Ho).
  assert (env0 = env) as -> by congruence.
  assert (Hbs' : batch_size (self w) = [] \/ batch_size (self w) = [n]).
  { destruct Hbs as [Hbs | (n' & Hn' & Hbs)]; [by left|right]. congruence. }
  clear Hbs.
  destruct (sc2_reset env) as [r env'] eqn:Hrun. simpl in Hreset. subst r.
  pose proof (started_reset env (obs, st)) as Hst'.
  pose proof (info_reset env) as Hinfo.
  pose proof (reset_returns_obs env obs st) as Hobs.
  rewrite Hrun in Hst', Hinfo, Hobs. simpl in Hst', Hinfo, Hobs.
  specialize (Hst' eq_refl). specialize (Hobs eq_refl).
  pose proof (started_obs_layout env' Hst') as Hlay.
  rewrite Hinfo, <- Hobs in Hlay.
  pose proof (layout_tensor _ _ default_dtype n f Hlay Hn Hf) as Ht.
  assert (Hd : spec_dtype (NdUnboundedContinuousTensorSpec [n; f] (device (self w))
                                                           default_dtype)
               = inr default_dtype) by reflexivity.
  destruct (rank2_fits (batch_size (self w)) n f default_dtype
              (cast_scalar default_dtype ∘ SFloat <$> concat obs) Hbs')
    as [Hfit Hkeep].
  pose proof (has_batch_zeros (batch_size (self w)) torch_bool) as Hzb.
  change (wp _reset
            (fun r w' => exists out rec ospec done,
               r = inr out /\ heap w !! out = None /\ heap w' !! out = Some rec /\
               td_batch_size rec = batch_size (self w) /\
               observation_spec (self w') = Some ospec /\
               record_matches ospec (delete "done" (td_fields rec)) = true /\
               td_fields rec !! "done" = Some done /\
               t_dtype done = torch_bool /\
               t_shape done = (batch_size (self w) ++ [1])%list /\
               length (t_data done) = numel (batch_size (self w)) /\
               Forall (fun s => s = SBool false) (t_data done)) w).
  unfold _reset. wp_run;
    try match goal with
        | H : forallb _ _ = false |- _ => simpl in H; by rewrite Hfit in H
        end.
  eexists _, _, _, _. split; [reflexivity|].
  split; [apply fresh_not_allocated|].
  split; [cbn; by rewrite lookup_insert_eq|].
  split; [reflexivity|]. split; [exact Ho|]. cbn [td_fields].
  rewrite at_least_1d_zeros. simpl list_to_map. rewrite Hkeep, insert_empty.
  split.
  { rewrite delete_insert_id by reflexivity.
    by apply observation_record_matches. }
  split; [by rewrite lookup_insert_eq|].
  split; [reflexivity|]. split; [reflexivity|].
  split; [apply length_replicate|apply torch_zeros_bool_false].
Qed.






End Contract.

(** * Further properties of the wrapper *)

(** ** Reset *)

(** X1: an exception raised by the environment's reset is the outcome of
    [_reset], the same exception value; the handle is the one the failed
    call left, and nothing else has happened: no record is allocated and
    no other attribute is assigned. *)
Theorem reset_propagates_environment_error w env exn :
  _env (self w) = Some env ->
  (sc2_reset env).1 = inl exn ->
  _reset w = (inl exn, mkWorld (with_env (sc2_reset env).2 (self w)) (heap w)).
Proof.
  intros Henv' Hexn.
  unfold _reset, env_reset, attr, lift, modify_self, mbind, M_bind.
  rewrite Henv'. destruct (sc2_reset env) as [r env'] eqn:Hrun.
  simpl in *. by rewrite Hexn.
Qed.

Lemma torch_tensor_rank rows d t :
  torch_tensor d rows = inr t -> at_least_1d [] t = t.
Proof.
  intros [_ ->]%torch_tensor_inr. unfold at_least_1d. cbn [t_shape].
  by destruct rows.
Qed.

(** X2: what a returning [_reset] has done, for a wrapper of empty batch
    shape.  The store is the old store plus one record at a location that
    was free; the record has the empty batch shape and the wrapper's
    device and exactly two entries: under the first name of the
    observation spec, the observations that the environment's reset
    returned, as a tensor of the spec's dtype, and under "done" a boolean
    tensor of shape [[1]] holding false, as the class docstring prints it;
    the second component of reset's result is dropped.  The wrapper holds
    the handle reset left, and keeps as [_is_done] the tensor of shape
    [[]] that it passed to the record. *)
Theorem reset_record_contents w out w' :
  batch_size (self w) = [] ->
  _reset w = (inr out, w') ->
  exists env obs state key sub rest dt t,
    _env (self w) = Some env /\
    (sc2_reset env).1 = inr (obs, state) /\
    observation_spec (self w) = Some (CompositeSpec ((key, sub) :: rest)) /\
    spec_dtype sub = inr dt /\
    torch_tensor dt (map (map SFloat) obs) = inr t /\
    heap w !! out = None /\
    heap w'
    = <[out := mkTensorDict
                 (<["done" := mkTensor [1] torch_bool [SBool false]]> {[key := t]})
                 [] (device (self w))]> (heap w) /\
    self w'
    = with_is_done (mkTensor [] torch_bool [SBool false])
        (with_env (sc2_reset env).2 (self w)).
Proof.
  intros Hbs. revert out w'. apply wp_run_inr.
  unfold _reset. wp_run; intros ? [=]; subst.
  match goal with H : sc2_reset _ = _ |- _ => rename H into Hrun end.
  match goal with H : torch_tensor _ _ = inr _ |- _ => rename H into Ht end.
  eexists _, _, _, _, _, _, _, _.
  repeat split; eauto using fresh_not_allocated.
  - by rewrite Hrun.
  - cbn. rewrite insert_insert_eq, Hbs. simpl list_to_map.
    by rewrite (torch_tensor_rank _ _ _ Ht), insert_empty.
  - by rewrite Hrun, Hbs.
Qed.

Lemma reset_attributes w :
  reward_spec (self (_reset w).2) = reward_spec (self w) /\
  input_spec (self (_reset w).2) = input_spec (self w) /\
  observation_spec (self (_reset w).2) = observation_spec (self w) /\
  device (self (_reset w).2) = device (self w) /\
  batch_size (self (_reset w).2) = batch_size (self w) /\
  wrapper_frame_skip (self (_reset w).2) = wrapper_frame_skip (self w).
Proof.
  change (wp _reset
            (fun _ w' =>
               reward_spec (self w') = reward_spec (self w) /\
               input_spec (self w') = input_spec (self w) /\
               observation_spec (self w') = observation_spec (self w) /\
               device (self w') = device (self w) /\
               batch_size (self w') = batch_size (self w) /\
               wrapper_frame_skip (self w') = wrapper_frame_skip (self w)) w).
  unfold _reset. wp_run; cbn; by rewrite ?Heqo.
Qed.

Lemma reset_frame w l x :
  heap w !! l = Some x -> heap (_reset w).2 !! l = Some x.
Proof.
  intros Hl. pose proof (allocated_not_fresh _ _ _ Hl) as Hne.
  change (wp _reset (fun _ w' => heap w' !! l = Some x) w).
  unfold _reset. wp_run; cbn; rewrite ?lookup_insert_ne by exact Hne; exact Hl.
Qed.

(** X3: whether it returns or raises, [_reset] assigns none of the three
    specs (the action mask in the input spec is not refreshed by a
    reset), nor the device, the batch shape or the frame skip, and it
    writes to no record that existed when it was called. *)
Theorem reset_keeps_specs_and_records w :
  reward_spec (self (_reset w).2) = reward_spec (self w) /\
  input_spec (self (_reset w).2) = input_spec (self w) /\
  observation_spec (self (_reset w).2) = observation_spec (self w) /\
  device (self (_reset w).2) = device (self w) /\
  batch_size (self (_reset w).2) = batch_size (self w) /\
  wrapper_frame_skip (self (_reset w).2) = wrapper_frame_skip (self w) /\
  forall l x, heap w !! l = Some x -> heap (_reset w).2 !! l = Some x.
Proof.
  pose proof (reset_attributes w) as (H1 & H2 & H3 & H4 & H5 & H6).
  repeat split; try assumption. intros l x. apply reset_frame.
Qed.

(** ** Step *)

(** X4: whether it returns or raises, [_step] assigns neither the reward
    spec nor the observation spec, the device, the batch shape or the
    frame skip, and it never assigns [_is_done]: the flag set by the last
    reset stays as it is even when the environment reports the episode
    as finished. *)
Theorem step_keeps_other_attributes td w :
  reward_spec (self (_step td w).2) = reward_spec (self w) /\
  observation_spec (self (_step td w).2) = observation_spec (self w) /\
  device (self (_step td w).2) = device (self w) /\
  batch_size (self (_step td w).2) = batch_size (self w) /\
  _is_done (self (_step td w).2) = _is_done (self w) /\
  wrapper_frame_skip (self (_step td w).2) = wrapper_frame_skip (self w).
Proof.
  change (wp (_step td)
            (fun _ w' =>
               reward_spec (self w') = reward_spec (self w) /\
               observation_spec (self w') = observation_spec (self w) /\
               device (self w') = device (self w) /\
               batch_size (self w') = batch_size (self w) /\
               _is_done (self w') = _is_done (self w) /\
               wrapper_frame_skip (self w') = wrapper_frame_skip (self w)) w).
  unfold _step. wp_run; cbn; repeat split; congruence.
Qed.


(** X6: a [_step] that raises has not assigned the input spec: the
    assignment is the last thing [_step] does, so after an exception the
    wrapper still holds the mask derived before the call, also when the
    environment has already advanced. *)
Theorem failed_step_keeps_input_spec td w exn :
  (_step td w).1 = inl exn ->
  input_spec (self (_step td w).2) = input_spec (self w).
Proof.
  revert exn.
  change (wp (_step td)
            (fun r w' => forall exn, r = inl exn ->
                                     input_spec (self w') = input_spec (self w)) w).
  unfold _step. wp_run; intros ? [=]; cbn; congruence.
Qed.

Lemma has_batch_scalar bs v d : has_batch bs (_to_tensor v d) = true -> bs = [].
Proof.
  unfold has_batch, _to_tensor. cbn [t_shape].
  intros Hb%bool_decide_eq_true. by rewrite take_nil in Hb.
Qed.

(** X7: what a returning [_step] has put into the store.  The incoming
    record then has the empty batch shape, and the store is the old store
    plus one record with the empty batch shape and the wrapper's device,
    holding exactly: under the first name of the observation spec, the
    observations queried from the environment after its step; under
    "reward" a tensor of shape [[1]] in the reward spec's dtype; under
    "done" a boolean tensor of shape [[1]] holding the flag the
    environment returned.  The info dictionary of the environment's
    result is dropped and the action is not copied. *)
Theorem step_record_contents td w out w' :
  _step td w = (inr out, w') ->
  exists rec action ispec aspec action_np env reward done info key sub rest dt t
         rspec rdt r,
    heap w !! td = Some rec /\ td_fields rec !! "action" = Some action /\
    td_batch_size rec = [] /\
    input_spec (self w) = Some ispec /\ spec_getitem ispec "action" = inr aspec /\
    to_numpy aspec action = inr action_np /\
    _env (self w) = Some env /\
    (sc2_step env action_np).1 = inr (reward, done, info) /\
    observation_spec (self w) = Some (CompositeSpec ((key, sub) :: rest)) /\
    spec_dtype sub = inr dt /\
    torch_tensor dt (map (map SFloat) (sc2_get_obs (sc2_step env action_np).2))
    = inr t /\
    reward_spec (self w) = Some rspec /\ spec_dtype rspec = inr rdt /\
    t_shape r = [1] /\ t_dtype r = rdt /\
    heap w !! out = None /\
    heap w'
    = <[out := mkTensorDict
                 (<["done" := mkTensor [1] torch_bool [SBool done]]>
                    (<["reward" := r]> {[key := t]}))
                 [] (device (self w))]> (heap w).
Proof.
  revert out w'. apply wp_run_inr.
  unfold _step. wp_run; intros ? [=]; subst.
  match goal with H : sc2_step _ _ = _ |- _ => rename H into Hrun end.
  match goal with H : torch_tensor _ (map _ (sc2_get_obs _)) = inr _ |- _ =>
    rename H into Ht end.
  match goal with H : has_batch _ (_to_tensor (SFloat _) _) = true |- _ =>
    pose proof (has_batch_scalar _ _ _ H) as Hbs end.
  eexists _, _, _, _, _, _, _, _, _, _, _, _, _, _, _, _,
    (mkTensor [1] _ [cast_scalar _ (SFloat _)]).
  repeat split; eauto using fresh_not_allocated.
  - by rewrite Hrun.
  - by rewrite Hrun.
  - cbn. rewrite !insert_insert_eq, Hbs. simpl list_to_map.
    by rewrite (torch_tensor_rank _ _ _ Ht), insert_empty.
Qed.

(** X8: [_step] does not consult [_is_done].  With any other value of
    the flag, also one that says the episode is finished, the same call
    gives the same result, the same store, the same environment handle
    and the same input spec, and leaves the flag as it found it. *)
Theorem step_ignores_is_done td w (flag : option Tensor) :
  let w2 :=
    mkWorld
      (mkWrapper (_env (self w)) (device (self w)) (batch_size (self w))
         (reward_spec (self w)) (input_spec (self w))
         (observation_spec (self w)) flag (wrapper_frame_skip (self w)))
      (heap w) in
  (_step td w2).1 = (_step td w).1 /\
  heap (_step td w2).2 = heap (_step td w).2 /\
  _env (self (_step td w2).2) = _env (self (_step td w).2) /\
  input_spec (self (_step td w2).2) = input_spec (self (_step td w).2) /\
  _is_done (self (_step td w2).2) = flag.
Proof.
  cbv zeta.
  change (
  wp (_step td)
     (fun r w' =>
        wp (_step td)
           (fun r2 w2' =>
              r2 = r /\ heap w2' = heap w' /\
              _env (self w2') = _env (self w') /\
              input_spec (self w2') = input_spec (self w') /\
              _is_done (self w2') = flag)
           (mkWorld
              (mkWrapper (_env (self w)) (device (self w)) (batch_size (self w))
                 (reward_spec (self w)) (input_spec (self w))
                 (observation_spec (self w)) flag (wrapper_frame_skip (self w)))
              (heap w)))
     w).
  unfold _step at 1. wp_run.
  all: unfold _step; wp_run.
  all: repeat split; cbn; congruence.
Qed.

(** ** Construction *)

(** X9: what [SC2Wrapper(env)] has done to the object when it succeeds.
    The environment is reset once and the handle stored is the one that
    reset left; the three specs are derived from that handle, not from
    the one passed in, on the object's device; every other attribute and
    the store are as they were when the validation of the configuration
    started. *)
Theorem wrapper_construction_result env w obs state n_agents obs_shape :
  (sc2_reset env).1 = inr (obs, state) ->
  sc2_get_env_info (sc2_reset env).2 !! "n_agents" = Some n_agents ->
  sc2_get_env_info (sc2_reset env).2 !! "obs_shape" = Some obs_shape ->
  row_lengths_agree (sc2_get_avail_actions (sc2_reset env).2) = true ->
  let env' := (sc2_reset env).2 in
  let dev := device (self w) in
  SC2Wrapper_init smac_py SC2Wrapper_cls (VEnv env) ∅ w
  = (inr tt,
     mkWorld
       (mkWrapper (Some env') dev (batch_size (self w))
          (Some (UnboundedContinuousTensorSpec dev torch_float32))
          (Some (CompositeSpec
                   [("action",
                     CustomNdOneHotDiscreteTensorSpec
                       (avail_mask (sc2_get_avail_actions env')) dev)]))
          (Some (CompositeSpec
                   [("observation",
                     NdUnboundedContinuousTensorSpec [n_agents; obs_shape] dev
                                                     torch_float32)]))
          (_is_done (self w)) (wrapper_frame_skip (self w)))
       (heap w)).
Proof.
  intros Hreset Hn Hf Hrect env'' dev. subst env'' dev.
  destruct (sc2_reset env) as [r env'] eqn:Hrun. simpl in *. subst r.
  assert (Hcheck : _check_kwargs SC2Wrapper_cls (<["env" := VEnv env]> ∅)
                   = inr tt).
  { unfold _check_kwargs, SC2Wrapper_check_kwargs. by rewrite lookup_insert_eq. }
  assert (Hmask : torch_tensor torch_bool (map (map SInt) (sc2_get_avail_actions env'))
                  = inr (avail_mask (sc2_get_avail_actions env'))).
  { unfold torch_tensor, avail_mask. rewrite row_lengths_agree_map, Hrect.
    by rewrite rows_shape_map, concat_map_map, <- list_fmap_compose. }
  assert (Hn' : dict_getitem (sc2_get_env_info env') "n_agents" = inr n_agents)
    by (unfold dict_getitem; by rewrite Hn).
  assert (Hf' : dict_getitem (sc2_get_env_info env') "obs_shape" = inr obs_shape)
    by (unfold dict_getitem; by rewrite Hf).
  unfold SC2Wrapper_init. apply wp_eq. wp_run. split; reflexivity.
Qed.

(** X10: an exception raised by the environment's reset during
    [SC2Wrapper(env)] is the outcome of the constructor, the same
    exception value, and the object is left as the base initialiser made
    it: no handle stored, no spec assigned. *)
Theorem wrapper_construction_propagates_reset_error env
        (kwargs : gmap string (PyVal E)) w exn :
  _has_smac smac_py = true ->
  (sc2_reset env).1 = inl exn ->
  SC2Wrapper_init smac_py SC2Wrapper_cls (VEnv env) kwargs w = (inl exn, w).
Proof.
  intros Hsmac Hreset.
  unfold SC2Wrapper_init, GymLikeEnv_init, _check_kwargs, SC2Wrapper_check_kwargs,
    _build_env, SC2Wrapper_build_env, lift, mbind, M_bind.
  rewrite lookup_insert_eq. simpl.
  destruct (sc2_reset env) as [r env'] eqn:Hrun. simpl in *. by rewrite Hreset.
Qed.

(** X11: how [SC2Env(map_name, seed)] reaches the library once the module
    is loaded with the import done.  The frame skip is set to 1, then the
    library's constructor is called with the map name and with the seed
    (None when none was given).  An exception of that constructor is the
    outcome, the frame skip staying assigned; otherwise construction goes
    on with the reset of the new handle. *)
Theorem scenario_construction_forwards map_name seed w :
  _has_smac smac_py = true ->
  let seed_value := match seed with Some z => VInt z | None => VNone end in
  let w1 := mkWorld (with_frame_skip 1 (self w)) (heap w) in
  SC2Env_init smac_py map_name seed ∅ w
  = match sc2_new (VStr map_name) seed_value ∅ with
    | inl exn => (inl exn, w1)
    | inr env =>
        (env' ← SC2Wrapper_build_env (VEnv env);
         modify_self (with_env env');; _make_specs env';; _init_env) w1
    end.
Proof.
  intros Hsmac seed_value w1. subst seed_value w1.
  unfold SC2Env_init, SC2Wrapper_init.
  destruct seed as [z|].
  - set (kw2 := <["seed" := VInt z]> (<["map_name" := VStr map_name]> ∅)
         : gmap string (PyVal E)).
    assert (H1 : kw2 !! "env" = None) by (subst kw2; by vm_compute).
    assert (H2 : kw2 !! "map_name" = Some (VStr map_name))
      by (subst kw2; rewrite lookup_insert_ne by done; by rewrite lookup_insert_eq).
    assert (H3 : kw2 !! "seed" = Some (VInt z))
      by (subst kw2; by rewrite lookup_insert_eq).
    assert (H4 : delete "seed" (delete "map_name" kw2) = ∅).
    { subst kw2. rewrite delete_insert_ne by done.
      rewrite (delete_insert_id ∅ "map_name") by done.
      by rewrite (delete_insert_id ∅ "seed"). }
    rewrite H1. simpl. rewrite (delete_id _ _ H1).
    unfold GymLikeEnv_init, _check_kwargs, SC2Env_check_kwargs, _build_env,
      SC2Env_build_env, lift, modify_self, mbind, M_bind.
    rewrite H2, H3, H4, Hsmac. simpl.
    by destruct (sc2_new (VStr map_name) (VInt z) ∅).
  - set (kw2 := <["map_name" := VStr map_name]> ∅ : gmap string (PyVal E)).
    assert (H1 : kw2 !! "env" = None) by (subst kw2; by vm_compute).
    assert (H2 : kw2 !! "map_name" = Some (VStr map_name))
      by (subst kw2; by rewrite lookup_insert_eq).
    assert (H3 : kw2 !! "seed" = None) by (subst kw2; by vm_compute).
    assert (H4 : delete "seed" (delete "map_name" kw2) = ∅).
    { subst kw2. rewrite delete_insert_id by done. by apply delete_id. }
    rewrite H1. simpl. rewrite (delete_id _ _ H1).
    unfold GymLikeEnv_init, _check_kwargs, SC2Env_check_kwargs, _build_env,
      SC2Env_build_env, lift, modify_self, mbind, M_bind.
    rewrite H2, H3, H4, Hsmac. simpl.
    by destruct (sc2_new (VStr map_name) VNone ∅).
Qed.

(** X12: spec derivation on an environment whose metadata lacks
    "n_agents" or "obs_shape" raises KeyError for the first of the two
    names that is missing.  The failure comes after the first two
    assignments: the reward spec and the input spec are assigned, the
    observation spec is as it was. *)
Theorem make_specs_missing_metadata env w key :
  row_lengths_agree (sc2_get_avail_actions env) = true ->
  (key = "n_agents" /\ sc2_get_env_info env !! "n_agents" = None) \/
  (key = "obs_shape" /\ is_Some (sc2_get_env_info env !! "n_agents") /\
   sc2_get_env_info env !! "obs_shape" = None) ->
  (_make_specs env w).1 = inl (KeyError key) /\
  is_Some (reward_spec (self (_make_specs env w).2)) /\
  is_Some (input_spec (self (_make_specs env w).2)) /\
  observation_spec (self (_make_specs env w).2) = observation_spec (self w).
Proof.
  intros Hrect Hmissing.
  assert (Hmask : exists m,
             torch_tensor torch_bool (map (map SInt) (sc2_get_avail_actions env))
             = inr m).
  { unfold torch_tensor. rewrite row_lengths_agree_map, Hrect. eauto. }
  destruct Hmask as [m Hmask].
  change (wp (_make_specs env)
            (fun r w' => r = inl (KeyError key) /\
                         is_Some (reward_spec (self w')) /\
                         is_Some (input_spec (self w')) /\
                         observation_spec (self w') = observation_spec (self w)) w).
  destruct Hmissing as [[-> Hn] | (-> & [n Hn] & Hf)].
  - assert (Hn' : dict_getitem (sc2_get_env_info env) "n_agents"
                  = inl (KeyError "n_agents"))
      by (unfold dict_getitem; by rewrite Hn).
    wp_run. repeat split; eauto.
  - assert (Hn' : dict_getitem (sc2_get_env_info env) "n_agents" = inr n)
      by (unfold dict_getitem; by rewrite Hn).
    assert (Hf' : dict_getitem (sc2_get_env_info env) "obs_shape"
                  = inl (KeyError "obs_shape"))
      by (unfold dict_getitem; by rewrite Hf).
    wp_run. repeat split; eauto.
Qed.

(** ** Call histories *)

Lemma run_call_attributes w c :
  reward_spec (self (run_call w c)) = reward_spec (self w) /\
  observation_spec (self (run_call w c)) = observation_spec (self w) /\
  device (self (run_call w c)) = device (self w) /\
  batch_size (self (run_call w c)) = batch_size (self w) /\
  wrapper_frame_skip (self (run_call w c)) = wrapper_frame_skip (self w).
Proof.
  destruct c as [|td|seed| |l td]; simpl.
  - pose proof (reset_attributes w). tauto.
  - change (wp (_step td)
              (fun _ w' =>
                 reward_spec (self w') = reward_spec (self w) /\
                 observation_spec (self w') = observation_spec (self w) /\
                 device (self w') = device (self w) /\
                 batch_size (self w') = batch_size (self w) /\
                 wrapper_frame_skip (self w') = wrapper_frame_skip (self w)) w).
    unfold _step. wp_run; cbn; repeat split; congruence.
  - tauto.
  - unfold get_seed, attr, mbind, M_bind. destruct (_env (self w)); simpl; tauto.
  - tauto.
Qed.

Lemma step_input_spec_form td w :
  (exists mask, t_dtype mask = torch_bool /\
      input_spec (self w)
      = Some (CompositeSpec
                [("action", CustomNdOneHotDiscreteTensorSpec mask (device (self w)))])) ->
  exists mask, t_dtype mask = torch_bool /\
      input_spec (self (_step td w).2)
      = Some (CompositeSpec
                [("action", CustomNdOneHotDiscreteTensorSpec mask (device (self w)))]).
Proof.
  intros (mask & Hd & Hi).
  change (wp (_step td)
            (fun _ w' => exists mask, t_dtype mask = torch_bool /\
               input_spec (self w')
               = Some (CompositeSpec
                         [("action",
                           CustomNdOneHotDiscreteTensorSpec mask (device (self w)))])) w).
  unfold _step. wp_run; cbn;
    try match goal with
        | H : torch_tensor torch_bool _ = inr ?m |- _ =>
            apply torch_tensor_bool_inr in H; destruct H as [_ ->]
        end;
    first [ by eauto | eexists; split; [|reflexivity]; reflexivity ].
Qed.

Lemma run_call_input_spec_form w c :
  (exists mask, t_dtype mask = torch_bool /\
      input_spec (self w)
      = Some (CompositeSpec
                [("action", CustomNdOneHotDiscreteTensorSpec mask (device (self w)))])) ->
  exists mask, t_dtype mask = torch_bool /\
      input_spec (self (run_call w c))
      = Some (CompositeSpec
                [("action", CustomNdOneHotDiscreteTensorSpec mask (device (self w)))]).
Proof.
  intros Hform. destruct c as [|td|seed| |l td]; simpl.
  - destruct (reset_attributes w) as (_ & -> & _). exact Hform.
  - by apply step_input_spec_form.
  - exact Hform.
  - unfold get_seed, attr, mbind, M_bind. by destruct (_env (self w)).
  - exact Hform.
Qed.

Lemma init_input_spec_form cls kwargs w :
  wp (GymLikeEnv_init smac_py cls kwargs)
     (fun r w' => r = inr tt ->
        device (self w') = device (self w) /\
        exists mask, t_dtype mask = torch_bool /\
          input_spec (self w')
          = Some (CompositeSpec
                    [("action",
                      CustomNdOneHotDiscreteTensorSpec mask (device (self w')))])) w.
Proof.
  wp_run; try discriminate; intros _; cbn; (split; [reflexivity|]);
    match goal with
    | H : torch_tensor torch_bool _ = inr ?m |- _ =>
        apply torch_tensor_bool_inr in H; destruct H as [_ ->]
    end; eexists; (split; [|reflexivity]); reflexivity.
Qed.

(** X13: through every history of calls on a constructed wrapper, the
    reward spec, the observation spec, the device, the batch shape and
    the frame skip stay what construction made them; only the mask inside
    the input spec moves, and the input spec always is a composite with
    the single entry "action", a one-hot spec over a boolean mask on the
    wrapper's device. *)
Theorem specs_fixed_through_history w0 history :
  constructed smac_py w0 ->
  reward_spec (self (run_calls history w0)) = reward_spec (self w0) /\
  observation_spec (self (run_calls history w0)) = observation_spec (self w0) /\
  device (self (run_calls history w0)) = device (self w0) /\
  batch_size (self (run_calls history w0)) = batch_size (self w0) /\
  wrapper_frame_skip (self (run_calls history w0)) = wrapper_frame_skip (self w0) /\
  exists mask, t_dtype mask = torch_bool /\
    input_spec (self (run_calls history w0))
    = Some (CompositeSpec
              [("action", CustomNdOneHotDiscreteTensorSpec mask (device (self w0)))]).
Proof.
  intros Hc.
  assert (Hform : exists mask, t_dtype mask = torch_bool /\
            input_spec (self w0)
            = Some (CompositeSpec
                      [("action",
                        CustomNdOneHotDiscreteTensorSpec mask (device (self w0)))])).
  { destruct Hc as [env kwargs w1 w' Hrun | map_name seed kwargs w1 w' Hrun];
      unfold SC2Env_init, SC2Wrapper_init in Hrun;
      exact (proj2 (wp_elim _ _ _ _ _ (init_input_spec_form _ _ _) Hrun eq_refl)). }
  clear Hc. revert w0 Hform.
  induction history as [|c history IH]; intros w0 Hform.
  - simpl. repeat split; try reflexivity. exact Hform.
  - change (run_calls (c :: history) w0) with (run_calls history (run_call w0 c)).
    destruct (run_call_attributes w0 c) as (Hr & Ho & Hd & Hb & Hf).
    pose proof (run_call_input_spec_form w0 c Hform) as Hform'.
    rewrite <- Hd in Hform'.
    destruct (IH _ Hform') as (IHr & IHo & IHd & IHb & IHf & IHm).
    rewrite IHr, IHo, IHd, IHb, IHf, Hr, Ho, Hd, Hb, Hf.
    repeat split; try reflexivity.
    rewrite Hd in IHm. exact IHm.
Qed.

End Runs.

(** ** Building without the library *)

(** C4: what an attempt to build an environment meets when the import of
    line 16 has failed because the library is not installed.  The module
    itself does not load: the class statement of [SC2Wrapper] raises
    NameError on the annotation [smac.env.StarCraft2Env] of [__init__]
    (line 65), for both construction paths, and the call changes
    nothing.  The RuntimeError of [SC2Env._build_env], whose message
    names the library, advises installing it, gives the project URL and
    quotes the import error, is reached only when the package itself is
    there and the import of the map registry alone has failed. *)
Theorem build_needs_loaded_module {E} `{!StarCraft2Env E} {R}
    (err : string) (registry : list (string * R))
    (map_name : string) (seed : option Z) (env : PyVal E)
    (kwargs : gmap string (PyVal E)) (w : World E) :
  program_SC2Env (smac_not_installed err) registry map_name seed kwargs w
  = (inl (NameError "name 'smac' is not defined"), w) /\
  program_SC2Wrapper (smac_not_installed err) registry env kwargs w
  = (inl (NameError "name 'smac' is not defined"), w) /\
  program_SC2Env (smac_maps_missing err) registry map_name seed kwargs w
  = (inl (RuntimeError
            ("smac not found, unable to create smac.env.StarCraft2Env. "
             +:+ "Consider installing smac. More info: https://github.com/oxwhirl/smac"
             +:+ ". (Original error message during import: " +:+ err +:+ ").")),
     w).
Proof.
  split; [reflexivity|]. split; [reflexivity|].
  unfold program_SC2Env, load_module. cbn [smac_is_bound].
  destruct (scenario_guard (state_after_import (smac_maps_missing err) registry)
              map_name seed kwargs w eq_refl) as (_ & Hinit & Hmsg).
  rewrite Hinit, Hmsg. reflexivity.
Qed.

(** * The concrete environment keeps the contract *)

#[global] Instance toy_laws : StarCraft2EnvLaws ToyEnv.
Proof.
  refine {| sc2_started := fun _ => True |}; try done.
  - by intros e obs st [= <- _].
  - intros e _. split; [reflexivity|]. exists 2, 2. by vm_compute.
  - intros e _. unfold sc2_get_avail_actions, toy_sc2, toy_avail.
    by destruct (Z.even (toy_turn e)).
  - intros e a _. unfold sc2_step, sc2_get_avail_actions, toy_sc2.
    intros Hav.
    assert (Hlegal : toy_legal e a = true); [|rewrite Hlegal; by eexists].
    revert Hav. unfold joint_action_available, rows_allow, toy_legal, toy_avail.
    destruct (Z.even (toy_turn e));
      (destruct a as [|a0 [|a1 [|? ?]]]; try done);
      cbn [map length zip zip_with forallb index_allowed Nat.eqb andb];
      unfold index_allowed;
      destruct (0 <=? a0); try done; destruct (0 <=? a1);
      rewrite ?andb_false_r; try done;
      destruct (Z.to_nat a0) as [|[|[|?]]]; try done;
      destruct (Z.to_nat a1) as [|[|[|?]]]; done.
Qed.

Lemma toy_world_constructed : constructed (toy_module true) toy_world.
Proof.
  apply (constructed_SC2Wrapper (toy_module true) (VEnv (mkToy 5 (Some 42))) ∅
           (blank "cpu" [] ∅)).
  vm_compute. reflexivity.
Defined.

(** * Instances on the concrete environment *)

Lemma reset_record_conforms_witness :
  constructed (toy_module true) toy_world /\
  _env (self (run_calls toy_history toy_world)) = Some toy_env0 /\
  (exists r, (sc2_reset toy_env0).1 = inr r) /\
  batch_size (self (run_calls toy_history toy_world)) = [] /\
  exists out rec ospec done,
    (_reset toy_ready).1 = inr out /\
    heap toy_ready !! out = None /\ heap (_reset toy_ready).2 !! out = Some rec /\
    td_batch_size rec = batch_size (self toy_ready) /\
    observation_spec (self (_reset toy_ready).2) = Some ospec /\
    record_matches ospec (delete "done" (td_fields rec)) = true /\
    td_fields rec !! "done" = Some done /\
    t_dtype done = torch_bool /\
    t_shape done = (batch_size (self toy_ready) ++ [1])%list /\
    length (t_data done) = numel (batch_size (self toy_ready)) /\
    Forall (fun s => s = SBool false) (t_data done).
Proof.
  assert (H2 : _env (self (run_calls toy_history toy_world)) = Some toy_env0)
    by (vm_compute; reflexivity).
  assert (H3 : exists r, (sc2_reset toy_env0).1 = inr r)
    by (eexists; vm_compute; reflexivity).
  assert (H4 : batch_size (self (run_calls toy_history toy_world)) = [])
    by (vm_compute; reflexivity).
  split; [exact toy_world_constructed|]. split; [exact H2|]. split; [exact H3|].
  split; [exact H4|].
  exact (reset_record_conforms (toy_module true) toy_world toy_history toy_env0
           toy_world_constructed H2 H3 (or_introl H4)).
Defined.


Lemma step_rederives_input_spec_witness :
  _step 5%positive toy_ready = (inr 6%positive, (_step 5%positive toy_ready).2) /\
  exists rec action ispec aspec action_np env env' mask,
    heap toy_ready !! 5%positive = Some rec /\
    td_fields rec !! "action" = Some action /\
    input_spec (self toy_ready) = Some ispec /\
    spec_getitem ispec "action" = inr aspec /\
    to_numpy aspec action = inr action_np /\
    _env (self toy_ready) = Some env /\ env' = (sc2_step env action_np).2 /\
    _env (self (_step 5%positive toy_ready).2) = Some env' /\
    mask = mkTensor (rows_shape (sc2_get_avail_actions env')) torch_bool
             ((fun z => SBool (negb (z =? 0))) <$> concat (sc2_get_avail_actions env')) /\
    input_spec (self (_step 5%positive toy_ready).2) =
      Some (CompositeSpec
              [("action",
                CustomNdOneHotDiscreteTensorSpec mask
                  (device (self (_step 5%positive toy_ready).2)))]).
Proof.
  assert (H : _step 5%positive toy_ready
              = (inr 6%positive, (_step 5%positive toy_ready).2))
    by (vm_compute; reflexivity).
  split; [exact H|].
  exact (step_rederives_input_spec 5%positive toy_ready 6%positive _ H).
Defined.

Lemma seed_is_fixed_witness :
  constructed (toy_module true) toy_world /\
  _set_seed (Some 7)
    (run_calls (toy_history ++ [CallStep 5%positive; CallSetSeed (Some 1)]) toy_world)
  = (inl (NotImplementedError "Seed cannot be changed once environment was created."),
     run_calls (toy_history ++ [CallStep 5%positive; CallSetSeed (Some 1)]) toy_world) /\
  exists env,
    _env (self (run_calls (toy_history ++ [CallStep 5%positive; CallSetSeed (Some 1)])
                          toy_world)) = Some env /\
    get_seed (run_calls (toy_history ++ [CallStep 5%positive; CallSetSeed (Some 1)])
                        toy_world)
    = (inr (sc2_seed env),
       run_calls (toy_history ++ [CallStep 5%positive; CallSetSeed (Some 1)]) toy_world).
Proof.
  split; [exact toy_world_constructed|].
  exact (seed_is_fixed (toy_module true) toy_world
           (toy_history ++ [CallStep 5%positive; CallSetSeed (Some 1)]) (Some 7)
           toy_world_constructed).
Defined.

Lemma construction_validates_config_witness :
  SC2Wrapper_check_kwargs (E := ToyEnv) ∅
  = inl (TypeError "Could not find environment key 'env' in kwargs.") /\
  SC2Wrapper_check_kwargs (E := ToyEnv) {[ "env" := VInt 3 ]}
  = inl (TypeError "env is not of type 'smac.env.StarCraft2Env'.") /\
  SC2Wrapper_check_kwargs toy_kwargs = inr tt /\
  SC2Env_check_kwargs (E := ToyEnv) ∅
  = inl (TypeError "Expected 'map_name' to be part of kwargs") /\
  SC2Env_check_kwargs (E := ToyEnv) {[ "map_name" := VStr "3m" ]} = inr tt /\
  GymLikeEnv_init (E := ToyEnv) (toy_module true) SC2Wrapper_cls ∅ (blank "cpu" [] ∅)
  = (inl (TypeError "Could not find environment key 'env' in kwargs."),
     blank "cpu" [] ∅).
Proof.
  destruct (construction_validates_config (E := ToyEnv) (toy_module true) ∅)
    as (Habsent & _ & _ & Hno_map & _ & Hfail & _).
  destruct (construction_validates_config (E := ToyEnv) (toy_module true)
              {[ "env" := VInt 3 ]}) as (_ & Hwrong & _).
  destruct (construction_validates_config (toy_module true) toy_kwargs)
    as (_ & _ & Hright & _).
  destruct (construction_validates_config (E := ToyEnv) (toy_module true)
              {[ "map_name" := VStr "3m" ]}) as (_ & _ & _ & _ & Hmap & _).
  split; [apply Habsent; reflexivity|].
  split; [apply (Hwrong (VInt 3)); [reflexivity|reflexivity|discriminate]|].
  split; [apply (Hright (mkToy 5 (Some 42))); reflexivity|].
  split; [apply Hno_map; reflexivity|].
  split; [apply Hmap; eexists; reflexivity|].
  apply Hfail. reflexivity.
Defined.

Lemma make_specs_derives_witness :
  sc2_get_env_info toy_env0 !! "n_agents" = Some 2 /\
  sc2_get_env_info toy_env0 !! "obs_shape" = Some 2 /\
  row_lengths_agree (sc2_get_avail_actions toy_env0) = true /\
  _make_specs toy_env0 (blank "cpu" [] ∅)
  = (inr tt,
     mkWorld
       (mkWrapper None "cpu" []
          (Some (UnboundedContinuousTensorSpec "cpu" torch_float32))
          (Some (CompositeSpec [("action", toy_action_spec)]))
          (Some (CompositeSpec
                   [("observation",
                     NdUnboundedContinuousTensorSpec [2; 2] "cpu" torch_float32)]))
          None None)
       ∅).
Proof.
  assert (H1 : sc2_get_env_info toy_env0 !! "n_agents" = Some 2)
    by (vm_compute; reflexivity).
  assert (H2 : sc2_get_env_info toy_env0 !! "obs_shape" = Some 2)
    by (vm_compute; reflexivity).
  assert (H3 : row_lengths_agree (sc2_get_avail_actions toy_env0) = true)
    by reflexivity.
  split; [exact H1|]. split; [exact H2|]. split; [exact H3|].
  exact (make_specs_derives toy_env0 (blank "cpu" [] ∅) 2 2 H1 H2 H3).
Defined.

Lemma step_delegates_validation_witness :
  to_numpy toy_action_spec (one_hot [[0; 0; 1]; [1; 0; 0]]) = inr [2; 0] /\
  (sc2_step toy_env0 [2; 0]).1 = inl (EnvError "illegal action") /\
  _env (self (_step 5%positive toy_illegal).2) = Some (sc2_step toy_env0 [2; 0]).2 /\
  _step 5%positive toy_illegal
  = (inl (EnvError "illegal action"),
     mkWorld (with_env (sc2_step toy_env0 [2; 0]).2 (self toy_illegal))
             (heap toy_illegal)).
Proof.
  assert (H1 : heap toy_illegal !! 5%positive
               = Some (action_record [[0; 0; 1]; [1; 0; 0]]))
    by (vm_compute; reflexivity).
  assert (H2 : td_fields (action_record [[0; 0; 1]; [1; 0; 0]]) !! "action"
               = Some (one_hot [[0; 0; 1]; [1; 0; 0]])) by (vm_compute; reflexivity).
  assert (H3 : input_spec (self toy_illegal)
               = Some (CompositeSpec [("action", toy_action_spec)]))
    by (vm_compute; reflexivity).
  assert (H4 : spec_getitem (CompositeSpec [("action", toy_action_spec)]) "action"
               = inr toy_action_spec) by (vm_compute; reflexivity).
  assert (H5 : to_numpy toy_action_spec (one_hot [[0; 0; 1]; [1; 0; 0]]) = inr [2; 0])
    by (vm_compute; reflexivity).
  assert (H6 : _env (self toy_illegal) = Some toy_env0) by (vm_compute; reflexivity).
  assert (H7 : (sc2_step toy_env0 [2; 0]).1 = inl (EnvError "illegal action"))
    by (vm_compute; reflexivity).
  destruct (step_delegates_validation 5%positive toy_illegal _ _ _ _ _ _
              H1 H2 H3 H4 H5 H6) as [Hcalled Hraise].
  split; [exact H5|]. split; [exact H7|]. split; [exact Hcalled|].
  exact (Hraise _ H7).
Defined.

Lemma step_leaves_input_record_witness :
  heap toy_ready !! 5%positive = Some (action_record [[0; 1; 0]; [1; 0; 0]]) /\
  (forall l x, heap toy_ready !! l = Some x ->
               heap (_step 5%positive toy_ready).2 !! l = Some x) /\
  (forall out, (_step 5%positive toy_ready).1 = inr out ->
     heap toy_ready !! out = None /\
     exists o, heap (_step 5%positive toy_ready).2 !! out = Some o /\
               td_batch_size o = td_batch_size (action_record [[0; 1; 0]; [1; 0; 0]])) /\
  (forall rec2,
     td_fields rec2 !! "action"
     = td_fields (action_record [[0; 1; 0]; [1; 0; 0]]) !! "action" ->
     td_batch_size rec2 = td_batch_size (action_record [[0; 1; 0]; [1; 0; 0]]) ->
     let w2 := mkWorld (self toy_ready) (<[5%positive := rec2]> (heap toy_ready)) in
     (_step 5%positive w2).1 = (_step 5%positive toy_ready).1 /\
     self (_step 5%positive w2).2 = self (_step 5%positive toy_ready).2 /\
     forall out, (_step 5%positive toy_ready).1 = inr out ->
       heap (_step 5%positive w2).2 !! out
       = heap (_step 5%positive toy_ready).2 !! out).
Proof.
  assert (H : heap toy_ready !! 5%positive
              = Some (action_record [[0; 1; 0]; [1; 0; 0]]))
    by (vm_compute; reflexivity).
  split; [exact H|].
  exact (step_leaves_input_record 5%positive toy_ready _ H).
Defined.

(** C1 as stated fails on the size of "done" and on "every constructed
    wrapper".  On the wrapper of empty batch shape the stored "done" has
    shape [[1]], not the batch shape; on a wrapper of batch shape [[3]]
    over the same two-agent environment the container refuses the
    observations and [_reset] raises. *)
Lemma reset_done_not_batch_shaped :
  constructed (toy_module true) toy_world /\
  batch_size (self toy_ready) = [] /\
  (exists out rec done,
      (_reset toy_ready).1 = inr out /\
      heap (_reset toy_ready).2 !! out = Some rec /\
      td_fields rec !! "done" = Some done /\
      t_shape done = [1] /\ t_shape done <> batch_size (self toy_ready)) /\
  constructed (toy_module true) toy_world3 /\
  batch_size (self toy_world3) = [3] /\
  (_reset toy_world3).1 = inl (RuntimeError "batch sizes are incongruent").
Proof.
  split; [exact toy_world_constructed|]. split; [by vm_compute|].
  split.
  { eexists _, _, _. split; [by vm_compute|]. split; [by vm_compute|].
    split; [by vm_compute|]. split; [reflexivity|]. by vm_compute. }
  split.
  { apply (constructed_SC2Wrapper (toy_module true) (VEnv (mkToy 5 (Some 42))) ∅
             (blank "cpu" [3] ∅)).
    by vm_compute. }
  split; by vm_compute.
Qed.


(** * Instances of the further properties *)

Lemma reset_propagates_environment_error_witness :
  _env (self probe_world) = Some (mkProbe (mkToy 0 None) 0 false) /\
  (sc2_reset (mkProbe (mkToy 0 None) 0 false)).1 = inl (EnvError "connection lost") /\
  _reset probe_world
  = (inl (EnvError "connection lost"),
     mkWorld (with_env (sc2_reset (mkProbe (mkToy 0 None) 0 false)).2 (self probe_world))
             (heap probe_world)).
Proof.
  assert (H1 : _env (self probe_world) = Some (mkProbe (mkToy 0 None) 0 false))
    by (vm_compute; reflexivity).
  assert (H2 : (sc2_reset (mkProbe (mkToy 0 None) 0 false)).1
               = inl (EnvError "connection lost")) by reflexivity.
  split; [exact H1|]. split; [exact H2|].
  exact (reset_propagates_environment_error probe_world _ _ H1 H2).
Defined.

Lemma reset_record_contents_witness :
  batch_size (self toy_ready) = [] /\
  _reset toy_ready = (inr 6%positive, (_reset toy_ready).2) /\
  exists env obs state key sub rest dt t,
    _env (self toy_ready) = Some env /\
    (sc2_reset env).1 = inr (obs, state) /\
    observation_spec (self toy_ready) = Some (CompositeSpec ((key, sub) :: rest)) /\
    spec_dtype sub = inr dt /\
    torch_tensor dt (map (map SFloat) obs) = inr t /\
    heap toy_ready !! 6%positive = None /\
    heap (_reset toy_ready).2
    = <[6%positive := mkTensorDict
                 (<["done" := mkTensor [1] torch_bool [SBool false]]> {[key := t]})
                 [] (device (self toy_ready))]>
        (heap toy_ready) /\
    self (_reset toy_ready).2
    = with_is_done (mkTensor [] torch_bool [SBool false])
        (with_env (sc2_reset env).2 (self toy_ready)).
Proof.
  assert (H0 : batch_size (self toy_ready) = []) by (vm_compute; reflexivity).
  assert (H : _reset toy_ready = (inr 6%positive, (_reset toy_ready).2))
    by (vm_compute; reflexivity).
  split; [exact H0|]. split; [exact H|].
  exact (reset_record_contents toy_ready 6%positive _ H0 H).
Defined.


Lemma failed_step_keeps_input_spec_witness :
  (_step 5%positive toy_illegal).1 = inl (EnvError "illegal action") /\
  input_spec (self (_step 5%positive toy_illegal).2) = input_spec (self toy_illegal).
Proof.
  assert (H : (_step 5%positive toy_illegal).1 = inl (EnvError "illegal action"))
    by (vm_compute; reflexivity).
  split; [exact H|].
  exact (failed_step_keeps_input_spec 5%positive toy_illegal _ H).
Defined.

Lemma step_record_contents_witness :
  _step 5%positive toy_ready = (inr 6%positive, (_step 5%positive toy_ready).2) /\
  exists rec action ispec aspec action_np env reward done info key sub rest dt t
         rspec rdt r,
    heap toy_ready !! 5%positive = Some rec /\
    td_fields rec !! "action" = Some action /\
    td_batch_size rec = [] /\
    input_spec (self toy_ready) = Some ispec /\
    spec_getitem ispec "action" = inr aspec /\
    to_numpy aspec action = inr action_np /\
    _env (self toy_ready) = Some env /\
    (sc2_step env action_np).1 = inr (reward, done, info) /\
    observation_spec (self toy_ready) = Some (CompositeSpec ((key, sub) :: rest)) /\
    spec_dtype sub = inr dt /\
    torch_tensor dt (map (map SFloat) (sc2_get_obs (sc2_step env action_np).2))
    = inr t /\
    reward_spec (self toy_ready) = Some rspec /\ spec_dtype rspec = inr rdt /\
    t_shape r = [1] /\ t_dtype r = rdt /\
    heap toy_ready !! 6%positive = None /\
    heap (_step 5%positive toy_ready).2
    = <[6%positive := mkTensorDict
                 (<["done" := mkTensor [1] torch_bool [SBool done]]>
                    (<["reward" := r]> {[key := t]}))
                 [] (device (self toy_ready))]> (heap toy_ready).
Proof.
  assert (H : _step 5%positive toy_ready
              = (inr 6%positive, (_step 5%positive toy_ready).2))
    by (vm_compute; reflexivity).
  split; [exact H|].
  exact (step_record_contents 5%positive toy_ready 6%positive _ H).
Defined.

Lemma wrapper_construction_result_witness :
  (sc2_reset (mkToy 5 (Some 42))).1 = inr (toy_obs toy_env0, [0%Q; 0%Q; 0%Q; 0%Q]) /\
  SC2Wrapper_init (toy_module true) SC2Wrapper_cls (VEnv (mkToy 5 (Some 42))) ∅
    (blank "cpu" [] ∅)
  = (inr tt,
     mkWorld
       (mkWrapper (Some toy_env0) "cpu" []
          (Some (UnboundedContinuousTensorSpec "cpu" torch_float32))
          (Some (CompositeSpec [("action", toy_action_spec)]))
          (Some (CompositeSpec
                   [("observation",
                     NdUnboundedContinuousTensorSpec [2; 2] "cpu" torch_float32)]))
          None None)
       ∅).
Proof.
  assert (H1 : (sc2_reset (mkToy 5 (Some 42))).1
               = inr (toy_obs toy_env0, [0%Q; 0%Q; 0%Q; 0%Q])) by reflexivity.
  assert (H2 : sc2_get_env_info (sc2_reset (mkToy 5 (Some 42))).2 !! "n_agents" = Some 2)
    by (vm_compute; reflexivity).
  assert (H3 : sc2_get_env_info (sc2_reset (mkToy 5 (Some 42))).2 !! "obs_shape" = Some 2)
    by (vm_compute; reflexivity).
  assert (H4 : row_lengths_agree
                 (sc2_get_avail_actions (sc2_reset (mkToy 5 (Some 42))).2) = true)
    by reflexivity.
  split; [exact H1|].
  exact (wrapper_construction_result (toy_module true) (mkToy 5 (Some 42))
           (blank "cpu" [] ∅) _ _ 2 2 H1 H2 H3 H4).
Defined.

Lemma wrapper_construction_propagates_reset_error_witness :
  _has_smac (toy_module true) = true /\
  (sc2_reset (mkProbe (mkToy 5 None) 0 false)).1 = inl (EnvError "connection lost") /\
  SC2Wrapper_init (toy_module true) SC2Wrapper_cls
    (VEnv (mkProbe (mkToy 5 None) 0 false)) ∅ (blank "cpu" [] ∅)
  = (inl (EnvError "connection lost"), blank "cpu" [] ∅).
Proof.
  split; [reflexivity|]. split; [reflexivity|].
  exact (wrapper_construction_propagates_reset_error (toy_module true)
           (mkProbe (mkToy 5 None) 0 false) ∅ (blank "cpu" [] ∅) _ eq_refl eq_refl).
Defined.

Lemma scenario_construction_forwards_witness :
  _has_smac (toy_module true) = true /\
  SC2Env_init (toy_module true) "8m" (Some 42) ∅ (blank (E := ToyEnv) "cpu" [] ∅)
  = (inl (EnvError "unknown map"),
     mkWorld (with_frame_skip 1 (self (blank "cpu" [] ∅))) ∅) /\
  SC2Env_init (toy_module true) "3m" None ∅ (blank (E := ToyEnv) "cpu" [] ∅)
  = (env' ← SC2Wrapper_build_env (VEnv (mkToy 7 None));
     modify_self (with_env env');; _make_specs env';; _init_env)
      (mkWorld (with_frame_skip 1 (self (blank "cpu" [] ∅))) ∅).
Proof.
  split; [reflexivity|]. split.
  - exact (scenario_construction_forwards (E := ToyEnv) (toy_module true) "8m" (Some 42)
             (blank "cpu" [] ∅) eq_refl).
  - exact (scenario_construction_forwards (E := ToyEnv) (toy_module true) "3m" None
             (blank "cpu" [] ∅) eq_refl).
Defined.

Lemma make_specs_missing_metadata_witness :
  row_lengths_agree (sc2_get_avail_actions (mkProbe (mkToy 0 None) 3 true)) = true /\
  sc2_get_env_info (mkProbe (mkToy 0 None) 3 true) !! "obs_shape" = None /\
  (_make_specs (mkProbe (mkToy 0 None) 3 true) (blank "cpu" [] ∅)).1
  = inl (KeyError "obs_shape") /\
  is_Some (reward_spec
             (self (_make_specs (mkProbe (mkToy 0 None) 3 true) (blank "cpu" [] ∅)).2)) /\
  is_Some (input_spec
             (self (_make_specs (mkProbe (mkToy 0 None) 3 true) (blank "cpu" [] ∅)).2)) /\
  observation_spec
    (self (_make_specs (mkProbe (mkToy 0 None) 3 true) (blank "cpu" [] ∅)).2)
  = observation_spec (self (blank (E := ProbeEnv) "cpu" [] ∅)).
Proof.
  assert (H1 : row_lengths_agree
                 (sc2_get_avail_actions (mkProbe (mkToy 0 None) 3 true)) = true)
    by reflexivity.
  assert (H2 : sc2_get_env_info (mkProbe (mkToy 0 None) 3 true) !! "obs_shape" = None)
    by (vm_compute; reflexivity).
  assert (H3 : is_Some (sc2_get_env_info (mkProbe (mkToy 0 None) 3 true) !! "n_agents"))
    by (exists 2; vm_compute; reflexivity).
  split; [exact H1|]. split; [exact H2|].
  exact (make_specs_missing_metadata (mkProbe (mkToy 0 None) 3 true)
           (blank "cpu" [] ∅) "obs_shape" H1
           (or_intror (conj eq_refl (conj H3 H2)))).
Defined.

Lemma specs_fixed_through_history_witness :
  constructed (toy_module true) toy_world /\
  reward_spec (self (run_calls (toy_history ++ [CallStep 5%positive]) toy_world))
  = reward_spec (self toy_world) /\
  observation_spec (self (run_calls (toy_history ++ [CallStep 5%positive]) toy_world))
  = observation_spec (self toy_world) /\
  device (self (run_calls (toy_history ++ [CallStep 5%positive]) toy_world))
  = device (self toy_world) /\
  batch_size (self (run_calls (toy_history ++ [CallStep 5%positive]) toy_world))
  = batch_size (self toy_world) /\
  wrapper_frame_skip (self (run_calls (toy_history ++ [CallStep 5%positive]) toy_world))
  = wrapper_frame_skip (self toy_world) /\
  exists mask, t_dtype mask = torch_bool /\
    input_spec (self (run_calls (toy_history ++ [CallStep 5%positive]) toy_world))
    = Some (CompositeSpec
              [("action", CustomNdOneHotDiscreteTensorSpec mask (device (self toy_world)))]).
Proof.
  split; [exact toy_world_constructed|].
  exact (specs_fixed_through_history (toy_module true) toy_world
           (toy_history ++ [CallStep 5%positive]) toy_world_constructed).
Defined.
